(** * RedisRemoteOtaiInterface

    A shallow embedding of [lib/RedisRemoteOtaiInterface.cpp]: the client-side
    facade that turns create/remove/set/get/getStats/clearStats calls into
    commands on a Redis channel and recovers the results by a blocking wait,
    together with the notification path that hands callback tables to the
    background thread.

    Member functions become state-passing functions over a record holding
    the members of the class.  The state survives an exception, so the
    commands already put on the channel stay observable after a throw. *)

From Stdlib Require Import ZArith List String Bool Lia.
Import ListNotations.
Local Open Scope Z_scope.

(** ** OTAI basic types *)

Definition otai_object_type_t := Z.
Definition otai_object_id_t := Z.
Definition otai_attr_id_t := Z.
Definition otai_stat_id_t := Z.

(** [otai_status_t]: the status codes this file names, and every other
    code the backend may answer with. *)
Inductive otai_status_t : Type :=
| OTAI_STATUS_SUCCESS
| OTAI_STATUS_FAILURE
| OTAI_STATUS_NOT_IMPLEMENTED
| OTAI_STATUS_INSUFFICIENT_RESOURCES
| OTAI_STATUS_BUFFER_OVERFLOW
| OTAI_STATUS_OTHER (code : Z).

Inductive otai_common_api_t : Type :=
| OTAI_COMMON_API_CREATE
| OTAI_COMMON_API_REMOVE
| OTAI_COMMON_API_SET
| OTAI_COMMON_API_GET.

(** The union [otai_attribute_value_t], tagged with the member in use.
    Only the object-id members are told apart; every other member is an
    opaque payload. *)
Inductive otai_attribute_value_t : Type :=
| AttrValue_other (payload : Z)
| AttrValue_oid (oid : otai_object_id_t)
| AttrValue_objlist (list : list otai_object_id_t).

Record otai_attribute_t : Type := mk_attribute {
  attr_id : otai_attr_id_t;
  attr_value : otai_attribute_value_t
}.

Inductive otai_stat_value_type_t : Type :=
| OTAI_STAT_VALUE_TYPE_UINT64
| OTAI_STAT_VALUE_TYPE_DOUBLE
| OTAI_STAT_VALUE_TYPE_OTHER.

(** A function pointer handed over by the user, by address. *)
Definition notification_fn := Z.

(** [otai_linecard_notifications_t]: four notification function pointers
    (the brace initialisers of [syncProcessNotification] give the arity);
    [None] is [nullptr]. *)
Record otai_linecard_notifications_t : Type := mk_notifications {
  on_linecard_state_change : option notification_fn;
  on_linecard_alarm : option notification_fn;
  on_linecard_ocm_spectrum_power : option notification_fn;
  on_linecard_otdr_result : option notification_fn
}.

(** [{nullptr, nullptr, nullptr, nullptr}] *)
Definition no_notifications : otai_linecard_notifications_t :=
  mk_notifications None None None None.

(** Which of the four pointers a notification is delivered through. *)
Inductive notification_slot : Type :=
| SlotStateChange
| SlotAlarm
| SlotOcmSpectrumPower
| SlotOtdrResult.

(** ** swss types *)

Definition FieldValueTuple := (string * string)%type.

Definition fvField (fv : FieldValueTuple) : string := fst fv.
Definition fvValue (fv : FieldValueTuple) : string := snd fv.

Record KeyOpFieldsValuesTuple : Type := mk_kco {
  kfvKey : string;
  kfvOp : string;
  kfvFieldsValues : list FieldValueTuple
}.

(** The command tags of [otairediscommon.h], by name. *)
Inductive redis_command : Type :=
| REDIS_ASIC_STATE_COMMAND_CREATE
| REDIS_ASIC_STATE_COMMAND_REMOVE
| REDIS_ASIC_STATE_COMMAND_SET
| REDIS_ASIC_STATE_COMMAND_GET
| REDIS_ASIC_STATE_COMMAND_GET_STATS
| REDIS_ASIC_STATE_COMMAND_CLEAR_STATS
| REDIS_ASIC_STATE_COMMAND_GETRESPONSE.

Record DBConnector : Type := mk_db {
  db_name : string;
  db_id : Z
}.

Inductive log_level : Type :=
| LOG_ERROR | LOG_WARN | LOG_NOTICE | LOG_DEBUG.

(** ** What the file takes from the rest of the library

    Header constants and the collaborators whose code lives in other
    files: the channel, the virtual object id manager, the serializers,
    the metadata tables, [Linecard], [Notification] and [Meta]. *)
Class Collaborators : Type := {
  (* constants *)
  OTAI_NULL_OBJECT_ID : otai_object_id_t;
  OTAI_OBJECT_TYPE_LINECARD : otai_object_type_t;
  OTAI_LINECARD_ATTR_CUSTOM_RANGE_START : otai_attr_id_t;
  OTAI_REDIS_LINECARD_ATTR_FLUSH : otai_attr_id_t;
  REDIS_KEY_VIDCOUNTER : string;

  (* RedisChannel.h; the notification handler bound at construction is
     [handleNotification] below *)
  RedisChannel : Type;
  make_RedisChannel : string -> RedisChannel;
  setBuffered : bool -> RedisChannel -> RedisChannel;

  (* VirtualObjectIdManager.h *)
  RedisVidIndexGenerator : Type;
  make_RedisVidIndexGenerator : DBConnector -> string -> RedisVidIndexGenerator;
  VirtualObjectIdManager : Type;
  make_VirtualObjectIdManager : RedisVidIndexGenerator -> VirtualObjectIdManager;
  allocateNewLinecardObjectId :
    VirtualObjectIdManager -> otai_object_id_t * VirtualObjectIdManager;
  allocateNewObjectId :
    otai_object_type_t -> otai_object_id_t -> VirtualObjectIdManager ->
    otai_object_id_t * VirtualObjectIdManager;
  otaiObjectTypeQuery : VirtualObjectIdManager -> otai_object_id_t -> otai_object_type_t;
  otaiLinecardIdQuery : VirtualObjectIdManager -> otai_object_id_t -> otai_object_id_t;

  (* meta/otai_serialize.h, meta/OtaiAttributeList.h *)
  otai_serialize_object_type : otai_object_type_t -> string;
  otai_serialize_object_id : otai_object_id_t -> string;
  serialize_attr_list :
    otai_object_type_t -> list otai_attribute_t -> bool -> list FieldValueTuple;
  serialize_counter_id_list :
    otai_object_type_t -> list otai_stat_id_t -> list FieldValueTuple;
  (* OtaiAttributeList(objectType, values, countOnly).get_attr_list() *)
  OtaiAttributeList :
    otai_object_type_t -> list FieldValueTuple -> bool -> list otai_attribute_t;
  (* transfer_attributes(objectType, count, src, dst, countOnly): the
     caller's buffer afterwards *)
  transfer_attributes :
    otai_object_type_t -> list otai_attribute_t -> list otai_attribute_t -> bool ->
    list otai_attribute_t;

  (* statistics metadata and the text decoders; [None] is the decoder's
     own exception *)
  double : Type;
  statvaluetype : otai_object_type_t -> otai_stat_id_t -> otai_stat_value_type_t;
  stoull : string -> option Z;
  stod : string -> option double;

  (* Linecard.h *)
  Linecard : Type;
  make_Linecard : otai_object_id_t -> list otai_attribute_t -> Linecard;
  updateNotifications : list otai_attribute_t -> Linecard -> Linecard;
  getLinecardNotifications : Linecard -> otai_linecard_notifications_t;

  (* meta/Meta.h, meta/Notification.h, meta/NotificationFactory.h *)
  Meta : Type;
  Notification : Type;
  NotificationFactory_deserialize : string -> string -> option Notification;
  processMetadata : Notification -> Meta -> Meta;
  getAnyObjectId : Notification -> otai_object_id_t;
  notificationSlot : Notification -> notification_slot
}.

(** ** How a call ends

    [Throws]: [SWSS_LOG_THROW] or an exception of the standard library.
    [Blocks]: the wait on the channel never returns.  [NullDereference]: a
    call through a null pointer, where C++ defines nothing; the model
    stops there. *)
Inductive outcome (A : Type) : Type :=
| Returns (a : A)
| Throws (what : string)
| Blocks
| NullDereference.

Arguments Returns {A} a.
Arguments Throws {A} what.
Arguments Blocks {A}.
Arguments NullDereference {A}.

Section Model.

Context {E : Collaborators}.

(** [otai_stat_value_t], tagged with the member written. *)
Inductive otai_stat_value_t : Type :=
| StatValue_u64 (u64 : Z)
| StatValue_d64 (d64 : double)
| StatValue_unset.

(** ** Observable effects, in program order *)
Inductive event : Type :=
| ChannelSet (key : string) (values : list FieldValueTuple) (command : redis_command)
| ChannelDel (key : string) (command : redis_command)
| ChannelFlush
| ChannelWait (command : redis_command)
| LinecardUpdateNotifications (attrs : list otai_attribute_t)
| MetaProcess (notification : Notification)
| UserCallback (fn : notification_fn) (notification : Notification)
| Log (level : log_level) (message : string).

(** ** The object

    [m_communicationChannel] and [m_linecard] are shared pointers the code
    resets to [nullptr]; [m_meta] is the weak pointer, [None] when it can
    no longer be locked.  [m_db], [m_redisVidIndexGenerator] and
    [m_virtualObjectIdManager] are assigned by [initialize], which the
    constructor calls, and are never reset.

    [responses] is the backend's side of the channel: the answers the next
    waits will receive, in order.  [trace] collects the effects. *)
Record RedisRemoteOtaiInterface : Type := mk_interface {
  m_initialized : bool;
  m_communicationChannel : option RedisChannel;
  m_db : DBConnector;
  m_redisVidIndexGenerator : RedisVidIndexGenerator;
  m_virtualObjectIdManager : VirtualObjectIdManager;
  m_linecard : option Linecard;
  m_meta : option Meta;
  responses : list (otai_status_t * KeyOpFieldsValuesTuple);
  trace : list event
}.

Definition set_initialized (b : bool) (s : RedisRemoteOtaiInterface) :=
  mk_interface b (m_communicationChannel s) (m_db s) (m_redisVidIndexGenerator s)
    (m_virtualObjectIdManager s) (m_linecard s) (m_meta s) (responses s) (trace s).

Definition set_communicationChannel (c : option RedisChannel) (s : RedisRemoteOtaiInterface) :=
  mk_interface (m_initialized s) c (m_db s) (m_redisVidIndexGenerator s)
    (m_virtualObjectIdManager s) (m_linecard s) (m_meta s) (responses s) (trace s).

Definition set_db (d : DBConnector) (s : RedisRemoteOtaiInterface) :=
  mk_interface (m_initialized s) (m_communicationChannel s) d (m_redisVidIndexGenerator s)
    (m_virtualObjectIdManager s) (m_linecard s) (m_meta s) (responses s) (trace s).

Definition set_redisVidIndexGenerator (g : RedisVidIndexGenerator) (s : RedisRemoteOtaiInterface) :=
  mk_interface (m_initialized s) (m_communicationChannel s) (m_db s) g
    (m_virtualObjectIdManager s) (m_linecard s) (m_meta s) (responses s) (trace s).

Definition set_virtualObjectIdManager (m : VirtualObjectIdManager) (s : RedisRemoteOtaiInterface) :=
  mk_interface (m_initialized s) (m_communicationChannel s) (m_db s) (m_redisVidIndexGenerator s)
    m (m_linecard s) (m_meta s) (responses s) (trace s).

Definition set_linecard (l : option Linecard) (s : RedisRemoteOtaiInterface) :=
  mk_interface (m_initialized s) (m_communicationChannel s) (m_db s) (m_redisVidIndexGenerator s)
    (m_virtualObjectIdManager s) l (m_meta s) (responses s) (trace s).

Definition set_meta (m : option Meta) (s : RedisRemoteOtaiInterface) :=
  mk_interface (m_initialized s) (m_communicationChannel s) (m_db s) (m_redisVidIndexGenerator s)
    (m_virtualObjectIdManager s) (m_linecard s) m (responses s) (trace s).

Definition set_responses (r : list (otai_status_t * KeyOpFieldsValuesTuple))
    (s : RedisRemoteOtaiInterface) :=
  mk_interface (m_initialized s) (m_communicationChannel s) (m_db s) (m_redisVidIndexGenerator s)
    (m_virtualObjectIdManager s) (m_linecard s) (m_meta s) r (trace s).

Definition set_trace (t : list event) (s : RedisRemoteOtaiInterface) :=
  mk_interface (m_initialized s) (m_communicationChannel s) (m_db s) (m_redisVidIndexGenerator s)
    (m_virtualObjectIdManager s) (m_linecard s) (m_meta s) (responses s) t.

(** A member function: from the object before the call to how the call
    ends and the object after it. *)
Definition M (A : Type) : Type :=
  RedisRemoteOtaiInterface -> outcome A * RedisRemoteOtaiInterface.

Definition ret {A} (a : A) : M A := fun s => (Returns a, s).

Definition bind {A B} (m : M A) (k : A -> M B) : M B :=
  fun s =>
    match m s with
    | (Returns a, s') => k a s'
    | (Throws w, s') => (Throws w, s')
    | (Blocks, s') => (Blocks, s')
    | (NullDereference, s') => (NullDereference, s')
    end.

Definition throw {A} (what : string) : M A := fun s => (Throws what, s).

Definition gets {A} (f : RedisRemoteOtaiInterface -> A) : M A :=
  fun s => (Returns (f s), s).

Definition modify (f : RedisRemoteOtaiInterface -> RedisRemoteOtaiInterface) : M unit :=
  fun s => (Returns tt, f s).

Definition emit (e : event) : M unit :=
  modify (fun s => set_trace (trace s ++ [e]) s).

End Model.

Declare Scope iface_scope.
Delimit Scope iface_scope with iface.
Notation "x <- m ;; k" := (bind m (fun x => k))
  (at level 61, m at next level, right associativity) : iface_scope.
Notation "m ;; k" := (bind m (fun _ => k))
  (at level 61, right associativity) : iface_scope.

Definition otai_status_eqb (a b : otai_status_t) : bool :=
  match a, b with
  | OTAI_STATUS_SUCCESS, OTAI_STATUS_SUCCESS => true
  | OTAI_STATUS_FAILURE, OTAI_STATUS_FAILURE => true
  | OTAI_STATUS_NOT_IMPLEMENTED, OTAI_STATUS_NOT_IMPLEMENTED => true
  | OTAI_STATUS_INSUFFICIENT_RESOURCES, OTAI_STATUS_INSUFFICIENT_RESOURCES => true
  | OTAI_STATUS_BUFFER_OVERFLOW, OTAI_STATUS_BUFFER_OVERFLOW => true
  | OTAI_STATUS_OTHER x, OTAI_STATUS_OTHER y => x =? y
  | _, _ => false
  end.

Section Facade.

Context {E : Collaborators}.

Local Open Scope string_scope.
Local Open Scope Z_scope.
Local Open Scope iface_scope.

(** ** Calls through [m_communicationChannel] *)

Definition deref {A} (p : option A) : M A :=
  fun s =>
    match p with
    | Some a => (Returns a, s)
    | None => (NullDereference, s)
    end.

Definition channel : M RedisChannel :=
  p <- gets m_communicationChannel ;; deref p.

(** [m_communicationChannel->set(key, values, command)] *)
Definition channel_set (key : string) (values : list FieldValueTuple)
    (command : redis_command) : M unit :=
  _ <- channel ;; emit (ChannelSet key values command).

(** [m_communicationChannel->del(key, command)] *)
Definition channel_del (key : string) (command : redis_command) : M unit :=
  _ <- channel ;; emit (ChannelDel key command).

(** [m_communicationChannel->flush()] *)
Definition channel_flush : M unit :=
  _ <- channel ;; emit ChannelFlush.

(** [m_communicationChannel->wait(command, kco)]: blocks until the backend
    answers; with no answer left the call never returns. *)
Definition channel_wait (command : redis_command)
    : M (otai_status_t * KeyOpFieldsValuesTuple) :=
  _ <- channel ;;
  emit (ChannelWait command) ;;
  fun s =>
    match responses s with
    | [] => (Blocks, s)
    | r :: rest => (Returns r, set_responses rest s)
    end.

(** ** Lifecycle *)

Definition clear_local_state : M unit :=
  emit (Log LOG_NOTICE "clearing local state") ;;
  modify (set_linecard None) ;;
  g <- gets m_redisVidIndexGenerator ;;
  modify (set_virtualObjectIdManager (make_VirtualObjectIdManager g)) ;;
  _ <- gets m_meta ;;
  ret tt.

Definition initialize (flags : Z) (service_method_table : option unit)
    : M otai_status_t :=
  initialized <- gets m_initialized ;;
  if initialized : bool then
    emit (Log LOG_ERROR "already initialized") ;;
    ret OTAI_STATUS_FAILURE
  else
    modify (set_communicationChannel (Some (make_RedisChannel "ASIC_DB"))) ;;
    c <- channel ;;
    modify (set_communicationChannel (Some (setBuffered false c))) ;;
    modify (set_db (mk_db "ASIC_DB" 0)) ;;
    db <- gets m_db ;;
    modify (set_redisVidIndexGenerator (make_RedisVidIndexGenerator db REDIS_KEY_VIDCOUNTER)) ;;
    clear_local_state ;;
    modify (set_initialized true) ;;
    ret OTAI_STATUS_SUCCESS.

Definition uninitialize : M otai_status_t :=
  emit (Log LOG_NOTICE "begin") ;;
  initialized <- gets m_initialized ;;
  if negb initialized then
    emit (Log LOG_ERROR "not initialized") ;;
    ret OTAI_STATUS_FAILURE
  else
    modify (set_communicationChannel None) ;;
    clear_local_state ;;
    modify (set_initialized false) ;;
    emit (Log LOG_NOTICE "end") ;;
    ret OTAI_STATUS_SUCCESS.

Definition linkCheck : M otai_status_t :=
  ret OTAI_STATUS_SUCCESS.

(** ** Waiting for the answer *)

Definition waitForResponse (api : otai_common_api_t) : M otai_status_t :=
  r <- channel_wait REDIS_ASIC_STATE_COMMAND_GETRESPONSE ;;
  ret (fst r).

Definition waitForGetResponse (objectType : otai_object_type_t)
    (attr_list : list otai_attribute_t)
    : M (otai_status_t * list otai_attribute_t) :=
  r <- channel_wait REDIS_ASIC_STATE_COMMAND_GETRESPONSE ;;
  let status := fst r in
  let values := kfvFieldsValues (snd r) in
  match status with
  | OTAI_STATUS_SUCCESS =>
      if (List.length values =? 0)%nat then
        throw "logic error states = success, get response returned 0 values!, send api response or sync/async issue?"
      else
        let list := OtaiAttributeList objectType values false in
        ret (status, transfer_attributes objectType list attr_list false)
  | OTAI_STATUS_BUFFER_OVERFLOW =>
      if (List.length values =? 0)%nat then
        throw "logic error status = BUFFER_OVERFLOW, get response returned 0 values!, send api response or sync/async issue?"
      else
        let list := OtaiAttributeList objectType values true in
        ret (status, transfer_attributes objectType list attr_list true)
  | _ => ret (status, attr_list)
  end.

(** ** The string-keyed overloads

    [create], [remove], [set] and [get] on a serialized object id; the
    suffix tells them from the public overloads. *)

Definition make_key (objectType : otai_object_type_t) (serializedObjectId : string)
    : string :=
  otai_serialize_object_type objectType ++ ":" ++ serializedObjectId.

Definition create_serialized (object_type : otai_object_type_t)
    (serializedObjectId : string) (attr_list : list otai_attribute_t)
    : M otai_status_t :=
  let entry := serialize_attr_list object_type attr_list false in
  let entry :=
    match entry with
    | [] => entry ++ [("NULL", "NULL")]
    | _ :: _ => entry
    end%list in
  let key := make_key object_type serializedObjectId in
  emit (Log LOG_NOTICE "generic create key: %s, fields: %zu") ;;
  channel_set key entry REDIS_ASIC_STATE_COMMAND_CREATE ;;
  status <- waitForResponse OTAI_COMMON_API_CREATE ;;
  emit (Log LOG_NOTICE "generic create key end: %s, fields: %zu") ;;
  ret status.

Definition remove_serialized (objectType : otai_object_type_t)
    (serializedObjectId : string) : M otai_status_t :=
  let key := make_key objectType serializedObjectId in
  emit (Log LOG_NOTICE "generic remove key: %s") ;;
  channel_del key REDIS_ASIC_STATE_COMMAND_REMOVE ;;
  status <- waitForResponse OTAI_COMMON_API_REMOVE ;;
  ret status.

(** [attr] is a pointer to one attribute; the serializer reads through it. *)
Definition set_serialized (objectType : otai_object_type_t)
    (serializedObjectId : string) (attr : option otai_attribute_t)
    : M otai_status_t :=
  a <- deref attr ;;
  let entry := serialize_attr_list objectType [a] false in
  let key := make_key objectType serializedObjectId in
  emit (Log LOG_DEBUG "generic set key: %s, fields: %zu") ;;
  channel_set key entry REDIS_ASIC_STATE_COMMAND_SET ;;
  status <- waitForResponse OTAI_COMMON_API_SET ;;
  ret status.

(** Modelled from the spec: [Utils::clearOidValues] is defined in
    [Utils.cpp], which is not part of this file.  Section 4.2: "any
    list-valued fields in the caller-supplied attribute buffer must be reset
    to an empty/null representation"; the comment at its call site in [get]
    says the oids are sent as null.  Every entry of an object-id list
    becomes the null object id; the other members are left as they are. *)
Definition clearOidValues (objectType : otai_object_type_t)
    (attr_list : list otai_attribute_t) : list otai_attribute_t :=
  map (fun a =>
         match attr_value a with
         | AttrValue_objlist l =>
             mk_attribute (attr_id a)
               (AttrValue_objlist (map (fun _ => OTAI_NULL_OBJECT_ID) l))
         | _ => a
         end) attr_list.

Definition get_serialized (objectType : otai_object_type_t)
    (serializedObjectId : string) (attr_list : list otai_attribute_t)
    : M (otai_status_t * list otai_attribute_t) :=
  let attr_list := clearOidValues objectType attr_list in
  let entry := serialize_attr_list objectType attr_list false in
  let key := make_key objectType serializedObjectId in
  emit (Log LOG_DEBUG "generic get key: %s, fields: %lu") ;;
  channel_set key entry REDIS_ASIC_STATE_COMMAND_GET ;;
  r <- waitForGetResponse objectType attr_list ;;
  ret r.

(** ** The public operations *)

(** [create] returns the status and the value left in [*objectId];
    [finish] is the part of the body after the allocation. *)
Definition create (objectType : otai_object_type_t) (linecardId : otai_object_id_t)
    (attr_list : list otai_attribute_t)
    : M (otai_status_t * otai_object_id_t) :=
  let finish (objectId linecardId : otai_object_id_t) :=
    if objectId =? OTAI_NULL_OBJECT_ID then
      emit (Log LOG_ERROR "failed to create %s, with linecard id: %s") ;;
      ret (OTAI_STATUS_INSUFFICIENT_RESOURCES, objectId)
    else
      status <- create_serialized objectType (otai_serialize_object_id objectId) attr_list ;;
      (if (objectType =? OTAI_OBJECT_TYPE_LINECARD)
          && otai_status_eqb status OTAI_STATUS_SUCCESS
       then modify (set_linecard (Some (make_Linecard objectId attr_list)))
       else ret tt) ;;
      ret (status, objectId) in
  mgr <- gets m_virtualObjectIdManager ;;
  if objectType =? OTAI_OBJECT_TYPE_LINECARD then
    let r := allocateNewLinecardObjectId mgr in
    modify (set_virtualObjectIdManager (snd r)) ;;
    let linecardId := fst r in
    let objectId := linecardId in
    if linecardId =? OTAI_NULL_OBJECT_ID then
      emit (Log LOG_ERROR "linecard ID allocation failed") ;;
      ret (OTAI_STATUS_FAILURE, objectId)
    else finish objectId linecardId
  else
    let r := allocateNewObjectId objectType linecardId mgr in
    modify (set_virtualObjectIdManager (snd r)) ;;
    finish (fst r) linecardId.

Definition remove (objectType : otai_object_type_t) (objectId : otai_object_id_t)
    : M otai_status_t :=
  status <- remove_serialized objectType (otai_serialize_object_id objectId) ;;
  (if (objectType =? OTAI_OBJECT_TYPE_LINECARD)
      && otai_status_eqb status OTAI_STATUS_SUCCESS
   then
     emit (Log LOG_NOTICE "removing linecard id %s") ;;
     modify (set_linecard None)
   else ret tt) ;;
  ret status.

(** The source declares [objectType] as [otai_object_id_t] here; the
    comparison with the linecard type is the same after that conversion. *)
Definition isRedisAttribute (objectType : otai_object_type_t)
    (attr : option otai_attribute_t) : bool :=
  match attr with
  | None => false
  | Some a =>
      if negb (objectType =? OTAI_OBJECT_TYPE_LINECARD)
         || (attr_id a <? OTAI_LINECARD_ATTR_CUSTOM_RANGE_START)
      then false
      else true
  end.

Definition setRedisExtensionAttribute (objectType : otai_object_type_t)
    (objectId : otai_object_id_t) (attr : option otai_attribute_t)
    : M otai_status_t :=
  match attr with
  | None =>
      emit (Log LOG_ERROR "attr pointer is null") ;;
      ret OTAI_STATUS_FAILURE
  | Some a =>
      if attr_id a =? OTAI_REDIS_LINECARD_ATTR_FLUSH then
        channel_flush ;;
        ret OTAI_STATUS_SUCCESS
      else
        emit (Log LOG_ERROR "unknown redis extension attribute: %d") ;;
        ret OTAI_STATUS_FAILURE
  end.

Definition set (objectType : otai_object_type_t) (objectId : otai_object_id_t)
    (attr : option otai_attribute_t) : M otai_status_t :=
  if isRedisAttribute objectType attr then
    setRedisExtensionAttribute objectType objectId attr
  else
    status <- set_serialized objectType (otai_serialize_object_id objectId) attr ;;
    (if (objectType =? OTAI_OBJECT_TYPE_LINECARD)
        && otai_status_eqb status OTAI_STATUS_SUCCESS
     then
       linecard <- gets m_linecard ;;
       match linecard with
       | Some l =>
           a <- deref attr ;;
           emit (LinecardUpdateNotifications [a]) ;;
           modify (set_linecard (Some (updateNotifications [a] l)))
       | None => ret tt
       end
     else ret tt) ;;
    ret status.

Definition get (objectType : otai_object_type_t) (objectId : otai_object_id_t)
    (attr_list : list otai_attribute_t)
    : M (otai_status_t * list otai_attribute_t) :=
  get_serialized objectType (otai_serialize_object_id objectId) attr_list.

(** ** Statistics *)

(** The loop of [waitForGetStatsResponse]: one value per counter id, in
    index order; a counter whose declared kind is neither is left unset. *)
Fixpoint decode_counters (object_type : otai_object_type_t)
    (counter_ids : list otai_stat_id_t) (values : list FieldValueTuple)
    : M (list otai_stat_value_t) :=
  match counter_ids, values with
  | id :: ids, v :: vs =>
      c <- match statvaluetype object_type id with
           | OTAI_STAT_VALUE_TYPE_UINT64 =>
               match stoull (fvValue v) with
               | Some u => ret (StatValue_u64 u)
               | None => throw "stoull"
               end
           | OTAI_STAT_VALUE_TYPE_DOUBLE =>
               match stod (fvValue v) with
               | Some d => ret (StatValue_d64 d)
               | None => throw "stod"
               end
           | OTAI_STAT_VALUE_TYPE_OTHER => ret StatValue_unset
           end ;;
      cs <- decode_counters object_type ids vs ;;
      ret (c :: cs)
  | _, _ => ret []
  end%list.

(** [number_of_counters] is the length of [counter_ids]; the second
    component of the result is what the call wrote to [counters]. *)
Definition waitForGetStatsResponse (object_type : otai_object_type_t)
    (counter_ids : list otai_stat_id_t)
    : M (otai_status_t * list otai_stat_value_t) :=
  r <- channel_wait REDIS_ASIC_STATE_COMMAND_GETRESPONSE ;;
  let status := fst r in
  match status with
  | OTAI_STATUS_SUCCESS =>
      let values := kfvFieldsValues (snd r) in
      if negb (List.length values =? List.length counter_ids)%nat then
        throw "wrong number of counters, got %zu, expected %u"
      else
        counters <- decode_counters object_type counter_ids values ;;
        ret (status, counters)
  | _ => ret (status, []%list)
  end.

(** [serialize_counter_id_list] is given the object type, from which the
    source first looks up the statistics enum. *)
Definition getStats (object_type : otai_object_type_t) (object_id : otai_object_id_t)
    (counter_ids : list otai_stat_id_t)
    : M (otai_status_t * list otai_stat_value_t) :=
  let entry := serialize_counter_id_list object_type counter_ids in
  let key := make_key object_type (otai_serialize_object_id object_id) in
  emit (Log LOG_DEBUG "generic get stats key: %s, fields: %zu") ;;
  channel_set key entry REDIS_ASIC_STATE_COMMAND_GET_STATS ;;
  waitForGetStatsResponse object_type counter_ids.

Definition getStatsExt (object_type : otai_object_type_t) (object_id : otai_object_id_t)
    (counter_ids : list otai_stat_id_t) (mode : Z) : M otai_status_t :=
  emit (Log LOG_ERROR "not implemented") ;;
  ret OTAI_STATUS_NOT_IMPLEMENTED.

Definition waitForClearStatsResponse : M otai_status_t :=
  r <- channel_wait REDIS_ASIC_STATE_COMMAND_GETRESPONSE ;;
  ret (fst r).

Definition clearStats (object_type : otai_object_type_t) (object_id : otai_object_id_t)
    (counter_ids : list otai_stat_id_t) : M otai_status_t :=
  let values := serialize_counter_id_list object_type counter_ids in
  let key := make_key object_type (otai_serialize_object_id object_id) in
  emit (Log LOG_DEBUG "generic clear stats key: %s, fields: %zu") ;;
  channel_set key values REDIS_ASIC_STATE_COMMAND_CLEAR_STATS ;;
  status <- waitForClearStatsResponse ;;
  ret status.

(** ** Queries *)

Definition objectTypeQuery (objectId : otai_object_id_t) : M otai_object_type_t :=
  mgr <- gets m_virtualObjectIdManager ;;
  ret (otaiObjectTypeQuery mgr objectId).

Definition linecardIdQuery (objectId : otai_object_id_t) : M otai_object_id_t :=
  mgr <- gets m_virtualObjectIdManager ;;
  ret (otaiLinecardIdQuery mgr objectId).

Definition logSet (api : Z) (log_level : Z) : M otai_status_t :=
  ret OTAI_STATUS_SUCCESS.

Definition setMeta (meta : option Meta) : M unit :=
  modify (set_meta meta).

(** ** Notifications *)

Definition syncProcessNotification (notification : Notification)
    : M otai_linecard_notifications_t :=
  meta <- gets m_meta ;;
  match meta with
  | None =>
      emit (Log LOG_WARN "meta pointer expired") ;;
      ret no_notifications
  | Some meta =>
      emit (MetaProcess notification) ;;
      modify (set_meta (Some (processMetadata notification meta))) ;;
      let objectId := getAnyObjectId notification in
      mgr <- gets m_virtualObjectIdManager ;;
      let linecardId := otaiLinecardIdQuery mgr objectId in
      linecard <- gets m_linecard ;;
      match linecard with
      | Some l => ret (getLinecardNotifications l)
      | None =>
          emit (Log LOG_WARN "linecard %s not present in container, returning empty linecard notifications") ;;
          ret no_notifications
      end
  end.

Definition slot_pointer (slot : notification_slot) (sn : otai_linecard_notifications_t)
    : option notification_fn :=
  match slot with
  | SlotStateChange => on_linecard_state_change sn
  | SlotAlarm => on_linecard_alarm sn
  | SlotOcmSpectrumPower => on_linecard_ocm_spectrum_power sn
  | SlotOtdrResult => on_linecard_otdr_result sn
  end.

(** Modelled from the spec: [Notification::executeCallback] is defined in
    the notification classes under [meta/], which are not part of this
    file.  Section 4.5, step 6: "Invoke the notification's associated
    callback using the Root Entity's callback table"; a null pointer in the
    table is not called. *)
Definition executeCallback (notification : Notification)
    (sn : otai_linecard_notifications_t) : M unit :=
  match slot_pointer (notificationSlot notification) sn with
  | Some fn => emit (UserCallback fn notification)
  | None => ret tt
  end.

(** [m_notificationCallback] is the constructor's argument; it is passed
    here, since it closes over the object itself. *)
Definition handleNotification
    (m_notificationCallback : Notification -> M otai_linecard_notifications_t)
    (name serializedNotification : string) (values : list FieldValueTuple)
    : M unit :=
  match NotificationFactory_deserialize name serializedNotification with
  | Some notification =>
      sn <- m_notificationCallback notification ;;
      executeCallback notification sn
  | None => ret tt
  end.

(** ** Construction and destruction

    The constructor's body; the object it is run on holds the members as
    they are before the body runs.  [m_notificationCallback] is the
    argument of [handleNotification]. *)
Definition new_RedisRemoteOtaiInterface : M unit :=
  modify (set_initialized false) ;;
  _ <- initialize 0 None ;;
  ret tt.

Definition delete_RedisRemoteOtaiInterface : M unit :=
  initialized <- gets m_initialized ;;
  if initialized : bool then
    _ <- uninitialize ;;
    ret tt
  else ret tt.


End Facade.

(** ** Reading the trace *)

Section Trace.

Context {E : Collaborators}.

Local Open Scope Z_scope.

(** What a call added to the trace: the events of [s'] after those of [s]. *)
Definition events_since (s s' : RedisRemoteOtaiInterface) : list event :=
  skipn (List.length (trace s)) (trace s').

Definition is_user_callback (e : event) : bool :=
  match e with
  | UserCallback _ _ => true
  | _ => false
  end.

(** A command put on the channel, or a wait on it. *)
Definition is_round_trip_event (e : event) : bool :=
  match e with
  | ChannelSet _ _ _ | ChannelDel _ _ | ChannelWait _ => true
  | _ => false
  end.

(** The field lists of the CREATE commands in a trace. *)
Fixpoint created_fields (t : list event) : list (list FieldValueTuple) :=
  match t with
  | [] => []
  | ChannelSet _ values REDIS_ASIC_STATE_COMMAND_CREATE :: t' =>
      values :: created_fields t'
  | _ :: t' => created_fields t'
  end.

(** The field lists of the GET commands in a trace. *)
Fixpoint get_fields (t : list event) : list (list FieldValueTuple) :=
  match t with
  | [] => []
  | ChannelSet _ values REDIS_ASIC_STATE_COMMAND_GET :: t' =>
      values :: get_fields t'
  | _ :: t' => get_fields t'
  end.

(** An object-id list in its null representation. *)
Definition oid_list_is_null (l : list otai_object_id_t) : Prop :=
  Forall (fun oid => oid = OTAI_NULL_OBJECT_ID) l.

(** The allocation [create] performs for an object type. *)
Definition create_allocation (objectType : otai_object_type_t)
    (linecardId : otai_object_id_t) (s : RedisRemoteOtaiInterface)
    : otai_object_id_t * VirtualObjectIdManager :=
  if objectType =? OTAI_OBJECT_TYPE_LINECARD
  then allocateNewLinecardObjectId (m_virtualObjectIdManager s)
  else allocateNewObjectId objectType linecardId (m_virtualObjectIdManager s).

(** An initialized interface is one that holds a channel. *)
Definition lifecycle_invariant (s : RedisRemoteOtaiInterface) : Prop :=
  m_initialized s = true <-> m_communicationChannel s <> None.

(** A computation that touches neither [m_initialized] nor
    [m_communicationChannel], however it ends. *)
Definition keeps_lifecycle {A} (m : M A) : Prop :=
  forall s,
    m_initialized (snd (m s)) = m_initialized s /\
    m_communicationChannel (snd (m s)) = m_communicationChannel s.


(** The commands and waits of a trace, in order. *)
Definition round_trip_events (t : list event) : list event :=
  filter is_round_trip_event t.

(** A computation that leaves the part [f] of the object as it was,
    however it ends. *)
Definition preserves {A B} (f : RedisRemoteOtaiInterface -> B) (m : M A) : Prop :=
  forall s, f (snd (m s)) = f s.

(** A linecard is tracked only by an initialized interface, and an
    initialized interface is one that holds a channel. *)
Definition tracking_invariant (s : RedisRemoteOtaiInterface) : Prop :=
  lifecycle_invariant s /\
  (m_linecard s <> None -> m_initialized s = true).

(** ** Sequences of calls

    One entry per member function a user or the channel can call. *)
Inductive api_call : Type :=
| CallInitialize (flags : Z) (service_method_table : option unit)
| CallUninitialize
| CallLinkCheck
| CallCreate (objectType : otai_object_type_t) (linecardId : otai_object_id_t)
    (attr_list : list otai_attribute_t)
| CallRemove (objectType : otai_object_type_t) (objectId : otai_object_id_t)
| CallSet (objectType : otai_object_type_t) (objectId : otai_object_id_t)
    (attr : option otai_attribute_t)
| CallGet (objectType : otai_object_type_t) (objectId : otai_object_id_t)
    (attr_list : list otai_attribute_t)
| CallGetStats (object_type : otai_object_type_t) (object_id : otai_object_id_t)
    (counter_ids : list otai_stat_id_t)
| CallGetStatsExt (object_type : otai_object_type_t) (object_id : otai_object_id_t)
    (counter_ids : list otai_stat_id_t) (mode : Z)
| CallClearStats (object_type : otai_object_type_t) (object_id : otai_object_id_t)
    (counter_ids : list otai_stat_id_t)
| CallObjectTypeQuery (objectId : otai_object_id_t)
| CallLinecardIdQuery (objectId : otai_object_id_t)
| CallLogSet (api : Z) (log_level : Z)
| CallSetMeta (meta : option Meta)
| CallHandleNotification (name serializedNotification : string)
    (values : list FieldValueTuple)
| CallDelete.

(** Whether the call came back to its caller (normally or by an
    exception), and the object it leaves. *)
Definition run_call (call : api_call) (s : RedisRemoteOtaiInterface)
    : bool * RedisRemoteOtaiInterface :=
  let finished {A} (r : outcome A * RedisRemoteOtaiInterface) :=
    (match fst r with
     | Returns _ | Throws _ => true
     | Blocks | NullDereference => false
     end, snd r) in
  match call with
  | CallInitialize flags smt => finished (initialize flags smt s)
  | CallUninitialize => finished (uninitialize s)
  | CallLinkCheck => finished (linkCheck s)
  | CallCreate t l attrs => finished (create t l attrs s)
  | CallRemove t oid => finished (remove t oid s)
  | CallSet t oid attr => finished (set t oid attr s)
  | CallGet t oid attrs => finished (get t oid attrs s)
  | CallGetStats t oid ids => finished (getStats t oid ids s)
  | CallGetStatsExt t oid ids mode => finished (getStatsExt t oid ids mode s)
  | CallClearStats t oid ids => finished (clearStats t oid ids s)
  | CallObjectTypeQuery oid => finished (objectTypeQuery oid s)
  | CallLinecardIdQuery oid => finished (linecardIdQuery oid s)
  | CallLogSet api level => finished (logSet api level s)
  | CallSetMeta meta => finished (setMeta meta s)
  | CallHandleNotification name body values =>
      finished (handleNotification syncProcessNotification name body values s)
  | CallDelete => finished (delete_RedisRemoteOtaiInterface s)
  end.

(** The calls in order; the sequence ends at a call that does not come
    back. *)
Fixpoint run_calls (calls : list api_call) (s : RedisRemoteOtaiInterface)
    : RedisRemoteOtaiInterface :=
  match calls with
  | [] => s
  | call :: rest =>
      let r := run_call call s in
      if fst r then run_calls rest (snd r) else snd r
  end.


(** What the decoding loop of [getStats] writes for one counter: the
    value parsed by the decoder of the counter's declared kind, or nothing
    for a kind that is neither. *)
Definition counter_decoded (object_type : otai_object_type_t)
    (entry : otai_stat_id_t * FieldValueTuple) (c : otai_stat_value_t) : Prop :=
  match statvaluetype object_type (fst entry) with
  | OTAI_STAT_VALUE_TYPE_UINT64 =>
      exists u, stoull (fvValue (snd entry)) = Some u /\ c = StatValue_u64 u
  | OTAI_STAT_VALUE_TYPE_DOUBLE =>
      exists d, stod (fvValue (snd entry)) = Some d /\ c = StatValue_d64 d
  | OTAI_STAT_VALUE_TYPE_OTHER => c = StatValue_unset
  end.

(** The decoder of the counter's declared kind accepts the text. *)
Definition counter_decodable (object_type : otai_object_type_t)
    (entry : otai_stat_id_t * FieldValueTuple) : Prop :=
  match statvaluetype object_type (fst entry) with
  | OTAI_STAT_VALUE_TYPE_UINT64 => stoull (fvValue (snd entry)) <> None
  | OTAI_STAT_VALUE_TYPE_DOUBLE => stod (fvValue (snd entry)) <> None
  | OTAI_STAT_VALUE_TYPE_OTHER => True
  end.


End Trace.

(** ** A concrete set of collaborators

    Small stand-ins on which the definitions above run: a manager that
    hands out ids until its budget is spent, a serializer that writes one
    field per attribute, a linecard that keeps its callback table. *)

Module Sample.

Local Open Scope string_scope.
Local Open Scope Z_scope.

Definition linecard_type : otai_object_type_t := 1.
Definition port_type : otai_object_type_t := 2.
Definition custom_range_start : otai_attr_id_t := 0x10000000.
Definition flush_attr : otai_attr_id_t := 0x10000001.

Definition allocate (objectType : otai_object_type_t) (budget : Z)
    : otai_object_id_t * Z :=
  if budget <=? 0 then (0, budget)
  else (objectType * 0x1000000000000 + budget, budget - 1).

Definition serialize_attr (a : otai_attribute_t) : FieldValueTuple :=
  match attr_value a with
  | AttrValue_other _ => ("ATTR", "value")
  | AttrValue_oid _ => ("ATTR", "oid")
  | AttrValue_objlist l => ("ATTR", if forallb (Z.eqb 0) l then "null-list" else "list")
  end.

Definition notifications_of (attrs : list otai_attribute_t)
    (old : otai_linecard_notifications_t) : otai_linecard_notifications_t :=
  match attrs with
  | [] => old
  | a :: _ => mk_notifications (on_linecard_state_change old) (Some (attr_id a))
                (on_linecard_ocm_spectrum_power old) (on_linecard_otdr_result old)
  end%list.

Definition deserialize (name body : string) : option (notification_slot * Z) :=
  if String.eqb name "linecard_alarm" then Some (SlotAlarm, 0x1000000000001)
  else if String.eqb name "linecard_state_change" then Some (SlotStateChange, 0x1000000000001)
  else None.

#[local] Instance collaborators : Collaborators := {|
  OTAI_NULL_OBJECT_ID := 0;
  OTAI_OBJECT_TYPE_LINECARD := linecard_type;
  OTAI_LINECARD_ATTR_CUSTOM_RANGE_START := custom_range_start;
  OTAI_REDIS_LINECARD_ATTR_FLUSH := flush_attr;
  REDIS_KEY_VIDCOUNTER := "VIDCOUNTER";
  RedisChannel := bool;
  make_RedisChannel := fun _ => true;
  setBuffered := fun b _ => b;
  RedisVidIndexGenerator := Z;
  make_RedisVidIndexGenerator := fun _ _ => 16;
  VirtualObjectIdManager := Z;
  make_VirtualObjectIdManager := fun g => g;
  allocateNewLinecardObjectId := allocate linecard_type;
  allocateNewObjectId := fun objectType _ => allocate objectType;
  otaiObjectTypeQuery := fun _ oid => oid / 0x1000000000000;
  otaiLinecardIdQuery := fun _ _ => 0x1000000000001;
  otai_serialize_object_type := fun t =>
    if t =? linecard_type then "OTAI_OBJECT_TYPE_LINECARD" else "OTAI_OBJECT_TYPE_PORT";
  otai_serialize_object_id := fun oid => if oid =? 0 then "oid:0x0" else "oid:0x1";
  serialize_attr_list := fun _ attrs _ => map serialize_attr attrs;
  serialize_counter_id_list := fun _ ids => map (fun _ => ("COUNTER", "")) ids;
  OtaiAttributeList := fun _ _ _ => []%list;
  transfer_attributes := fun _ _ dst _ => dst;
  double := Z;
  statvaluetype := fun _ id =>
    if Z.even id then OTAI_STAT_VALUE_TYPE_UINT64 else OTAI_STAT_VALUE_TYPE_DOUBLE;
  stoull := fun v => if String.eqb v "" then None else Some 7;
  stod := fun v => if String.eqb v "" then None else Some 7;
  Linecard := otai_linecard_notifications_t;
  make_Linecard := fun _ attrs => notifications_of attrs no_notifications;
  updateNotifications := notifications_of;
  getLinecardNotifications := fun l => l;
  Meta := nat;
  Notification := (notification_slot * Z)%type;
  NotificationFactory_deserialize := deserialize;
  processMetadata := fun _ m => S m;
  getAnyObjectId := snd;
  notificationSlot := fst
|}.

(** An initialized interface with the given id budget, tracked linecard,
    metadata and pending backend answers, and an empty trace. *)
Definition interface (budget : Z) (linecard : option otai_linecard_notifications_t)
    (meta : option nat) (answers : list (otai_status_t * KeyOpFieldsValuesTuple))
    : RedisRemoteOtaiInterface :=
  mk_interface true (Some false) (mk_db "ASIC_DB" 0) 16 budget linecard meta answers [].

(** The same object after [uninitialize]. *)
Definition uninitialized_interface : RedisRemoteOtaiInterface :=
  mk_interface false None (mk_db "ASIC_DB" 0) 16 16 None None [] [].

Definition answer (status : otai_status_t) (values : list FieldValueTuple)
    : otai_status_t * KeyOpFieldsValuesTuple :=
  (status, mk_kco "" "getresponse" values).

(** An ordinary attribute, a callback table with the alarm pointer set,
    and an alarm notification. *)
Definition plain_attr : otai_attribute_t := mk_attribute 4 (AttrValue_other 1).

Definition callbacks : otai_linecard_notifications_t :=
  notifications_of [mk_attribute 77 (AttrValue_other 0)] no_notifications.

Definition alarm : notification_slot * Z := (SlotAlarm, 0x1000000000001).


End Sample.

(** * Properties *)

Section Properties.

Context {E : Collaborators}.

Local Open Scope string_scope.
Local Open Scope Z_scope.

(** ** Running a call step by step *)

Lemma events_since_app s s' new :
  trace s' = (trace s ++ new)%list -> events_since s s' = new.
Proof.
  intros H. unfold events_since. rewrite H.
  rewrite skipn_app, skipn_all, Nat.sub_diag. reflexivity.
Qed.

Lemma channel_wait_run command s c :
  m_communicationChannel s = Some c ->
  channel_wait command s =
    let s1 := set_trace (trace s ++ [ChannelWait command]) s in
    match responses s with
    | [] => (Blocks, s1)
    | r :: rest => (Returns r, set_responses rest s1)
    end%list.
Proof.
  intros H. unfold channel_wait, channel, bind, gets, deref, emit, modify.
  rewrite H. simpl. destruct (responses s); reflexivity.
Qed.

(** ** The lifecycle invariant

    Only [initialize] and [uninitialize] assign [m_initialized] and
    [m_communicationChannel], and they assign them together; so an
    initialized interface always has a channel to call. *)

Lemma keeps_ret {A} (a : A) : keeps_lifecycle (ret a).
Proof. intros s. split; reflexivity. Qed.

Lemma keeps_throw {A} what : keeps_lifecycle (@throw E A what).
Proof. intros s. split; reflexivity. Qed.

Lemma keeps_gets {A} (f : RedisRemoteOtaiInterface -> A) : keeps_lifecycle (gets f).
Proof. intros s. split; reflexivity. Qed.

Lemma keeps_deref {A} (p : option A) : keeps_lifecycle (deref p).
Proof. intros s. destruct p; split; reflexivity. Qed.

Lemma keeps_emit e : keeps_lifecycle (emit e).
Proof. intros s. split; reflexivity. Qed.

Lemma keeps_modify f :
  (forall s, m_initialized (f s) = m_initialized s /\
             m_communicationChannel (f s) = m_communicationChannel s) ->
  keeps_lifecycle (modify f).
Proof. intros H s. exact (H s). Qed.

Lemma keeps_bind {A B} (m : M A) (k : A -> M B) :
  keeps_lifecycle m -> (forall a, keeps_lifecycle (k a)) ->
  keeps_lifecycle (bind m k).
Proof.
  intros Hm Hk s. unfold bind.
  specialize (Hm s). destruct (m s) as [[a | w | |] s1]; simpl in Hm; simpl;
    try exact Hm.
  destruct (Hk a s1) as [H1 H2]. destruct Hm as [H3 H4].
  split; congruence.
Qed.

Lemma keeps_pop_response :
  keeps_lifecycle
    (fun s => match responses s with
              | [] => (Blocks, s)
              | r :: rest => (Returns r, set_responses rest s)
              end%list).
Proof. intros s. destruct (responses s); split; reflexivity. Qed.

Ltac keeps_step :=
  first
    [ apply keeps_ret | apply keeps_throw | apply keeps_gets | apply keeps_deref
    | apply keeps_emit | apply keeps_pop_response
    | apply keeps_modify; intros ?; split; reflexivity
    | apply keeps_bind; [| intros ?]
    | match goal with
      | |- keeps_lifecycle (if ?b then _ else _) => destruct b
      | |- keeps_lifecycle (match ?x with _ => _ end) => destruct x
      end ].

Ltac keeps := cbv zeta; repeat keeps_step.

Lemma keeps_create objectType linecardId attr_list :
  keeps_lifecycle (create objectType linecardId attr_list).
Proof.
  unfold create, create_serialized. keeps.
Qed.

Lemma keeps_remove objectType objectId : keeps_lifecycle (remove objectType objectId).
Proof.
  unfold remove, remove_serialized, channel_del, channel. keeps.
Qed.

Lemma keeps_set objectType objectId attr :
  keeps_lifecycle (set objectType objectId attr).
Proof.
  unfold set, setRedisExtensionAttribute, set_serialized, channel_flush, channel.
  keeps.
Qed.

Lemma keeps_get objectType objectId attr_list :
  keeps_lifecycle (get objectType objectId attr_list).
Proof.
  unfold get, get_serialized, waitForGetResponse. keeps.
Qed.

Lemma keeps_decode_counters object_type counter_ids :
  forall values, keeps_lifecycle (decode_counters object_type counter_ids values).
Proof.
  induction counter_ids as [| id ids IH]; intros values; simpl.
  - apply keeps_ret.
  - destruct values as [| v vs]; [apply keeps_ret |].
    keeps. apply IH.
Qed.

Lemma keeps_getStats object_type object_id counter_ids :
  keeps_lifecycle (getStats object_type object_id counter_ids).
Proof.
  unfold getStats, waitForGetStatsResponse. keeps; apply keeps_decode_counters.
Qed.

Lemma keeps_clearStats object_type object_id counter_ids :
  keeps_lifecycle (clearStats object_type object_id counter_ids).
Proof.
  unfold clearStats, waitForClearStatsResponse. keeps.
Qed.

Lemma keeps_handleNotification name serializedNotification values :
  keeps_lifecycle
    (handleNotification syncProcessNotification name serializedNotification values).
Proof.
  unfold handleNotification, syncProcessNotification, executeCallback. keeps.
Qed.

Lemma keeps_invariant {A} (m : M A) s :
  keeps_lifecycle m -> lifecycle_invariant s -> lifecycle_invariant (snd (m s)).
Proof.
  intros Hk Hi. destruct (Hk s) as [H1 H2].
  unfold lifecycle_invariant in *. rewrite H1, H2. exact Hi.
Qed.

Lemma initialize_invariant flags service_method_table s :
  lifecycle_invariant s ->
  lifecycle_invariant (snd (initialize flags service_method_table s)).
Proof.
  unfold lifecycle_invariant, initialize, clear_local_state, channel, bind,
    gets, deref, emit, modify, ret.
  intros Hi. destruct (m_initialized s) eqn:Hini; simpl; rewrite ?Hini; simpl.
  - rewrite ?Hini. exact Hi.
  - split; intros H; [discriminate | reflexivity].
Qed.

Lemma uninitialize_invariant s :
  lifecycle_invariant s -> lifecycle_invariant (snd (uninitialize s)).
Proof.
  unfold lifecycle_invariant, uninitialize, clear_local_state, bind, gets,
    emit, modify, ret.
  intros Hi. destruct (m_initialized s) eqn:Hini; simpl; rewrite ?Hini; simpl.
  - split; intros H; [discriminate H | exfalso; apply H; reflexivity].
  - rewrite ?Hini. exact Hi.
Qed.

(** An initialized interface that satisfies the invariant has a channel. *)
Lemma initialized_has_channel s :
  lifecycle_invariant s -> m_initialized s = true ->
  exists c, m_communicationChannel s = Some c.
Proof.
  intros Hi Hini. apply Hi in Hini.
  destruct (m_communicationChannel s) as [c |]; [exists c; reflexivity | contradiction].
Qed.

(** ** Lifecycle *)

(** C9. [initialize] on an initialized interface returns
    [OTAI_STATUS_FAILURE] and leaves it initialized; on an uninitialized one
    it returns [OTAI_STATUS_SUCCESS], leaves it initialized and tracks no
    linecard.  [uninitialize] on an uninitialized interface returns
    [OTAI_STATUS_FAILURE] and leaves it uninitialized; on an initialized one
    it returns [OTAI_STATUS_SUCCESS] and leaves it uninitialized. *)
Theorem initialize_uninitialize_lifecycle :
  forall (flags : Z) (service_method_table : option unit)
         (s : RedisRemoteOtaiInterface),
    (m_initialized s = true ->
       fst (initialize flags service_method_table s) = Returns OTAI_STATUS_FAILURE /\
       m_initialized (snd (initialize flags service_method_table s)) = true) /\
    (m_initialized s = false ->
       fst (initialize flags service_method_table s) = Returns OTAI_STATUS_SUCCESS /\
       m_initialized (snd (initialize flags service_method_table s)) = true /\
       m_linecard (snd (initialize flags service_method_table s)) = None) /\
    (m_initialized s = false ->
       fst (uninitialize s) = Returns OTAI_STATUS_FAILURE /\
       m_initialized (snd (uninitialize s)) = false) /\
    (m_initialized s = true ->
       fst (uninitialize s) = Returns OTAI_STATUS_SUCCESS /\
       m_initialized (snd (uninitialize s)) = false).
Proof.
  intros flags smt s.
  unfold initialize, uninitialize, clear_local_state, channel, bind, gets,
    deref, emit, modify, ret.
  split; [| split; [| split]]; intros H; simpl; rewrite H; simpl;
    repeat split; exact H.
Qed.

(** ** Identifier allocation in [create] *)

(** C1, as the code has it.  When the allocation returns the null object
    id, [create] returns at once with the null id in [*objectId]:
    [OTAI_STATUS_FAILURE] for the linecard type, whose branch has its own
    check, and [OTAI_STATUS_INSUFFICIENT_RESOURCES] for every other type.
    In both cases the call adds one error line to the log and nothing else
    besides the manager's own bookkeeping: no command is put on the
    channel, no wait is performed and no answer is consumed. *)
Theorem create_allocation_failure :
  forall (objectType : otai_object_type_t) (linecardId : otai_object_id_t)
         (attr_list : list otai_attribute_t) (s : RedisRemoteOtaiInterface),
    fst (create_allocation objectType linecardId s) = OTAI_NULL_OBJECT_ID ->
    create objectType linecardId attr_list s =
      (Returns
         (if objectType =? OTAI_OBJECT_TYPE_LINECARD
          then OTAI_STATUS_FAILURE
          else OTAI_STATUS_INSUFFICIENT_RESOURCES,
          OTAI_NULL_OBJECT_ID),
       set_trace
         (trace s ++
          [Log LOG_ERROR
             (if objectType =? OTAI_OBJECT_TYPE_LINECARD
              then "linecard ID allocation failed"
              else "failed to create %s, with linecard id: %s")])
         (set_virtualObjectIdManager
            (snd (create_allocation objectType linecardId s)) s)) /\
    Forall (fun e => is_round_trip_event e = false)
      (events_since s (snd (create objectType linecardId attr_list s))) /\
    responses (snd (create objectType linecardId attr_list s)) = responses s.
Proof.
  intros objectType linecardId attr_list s Hnull.
  assert (Hrun :
    create objectType linecardId attr_list s =
      (Returns
         (if objectType =? OTAI_OBJECT_TYPE_LINECARD
          then OTAI_STATUS_FAILURE
          else OTAI_STATUS_INSUFFICIENT_RESOURCES,
          OTAI_NULL_OBJECT_ID),
       set_trace
         (trace s ++
          [Log LOG_ERROR
             (if objectType =? OTAI_OBJECT_TYPE_LINECARD
              then "linecard ID allocation failed"
              else "failed to create %s, with linecard id: %s")])
         (set_virtualObjectIdManager
            (snd (create_allocation objectType linecardId s)) s))).
  { revert Hnull.
    unfold create_allocation, create, bind, gets, emit, modify, ret.
    destruct (objectType =? OTAI_OBJECT_TYPE_LINECARD); simpl;
      intros H; rewrite H, Z.eqb_refl; reflexivity. }
  split; [exact Hrun |]. rewrite Hrun. simpl. split; [| reflexivity].
  erewrite events_since_app; [| simpl; reflexivity].
  repeat constructor.
Qed.

(** ** The get path *)

Lemma get_run objectType objectId attr_list s c :
  m_communicationChannel s = Some c ->
  get objectType objectId attr_list s =
    let cleared := clearOidValues objectType attr_list in
    let key := make_key objectType (otai_serialize_object_id objectId) in
    waitForGetResponse objectType cleared
      (set_trace
         (trace s ++
          [Log LOG_DEBUG "generic get key: %s, fields: %lu";
           ChannelSet key (serialize_attr_list objectType cleared false)
             REDIS_ASIC_STATE_COMMAND_GET]) s).
Proof.
  intros H.
  unfold get, get_serialized, channel_set, channel, bind, gets, deref, emit,
    modify, ret.
  simpl. rewrite H. simpl. rewrite <- app_assoc. simpl.
  destruct (waitForGetResponse _ _ _) as [[r | w | |] s2]; reflexivity.
Qed.

(** C2. When the wait of a [get] hands back [OTAI_STATUS_SUCCESS] or
    [OTAI_STATUS_BUFFER_OVERFLOW] with no field/value pair, [get] throws;
    it does not return a status. *)
Theorem get_empty_payload_throws :
  forall (objectType : otai_object_type_t) (objectId : otai_object_id_t)
         (attr_list : list otai_attribute_t) (s : RedisRemoteOtaiInterface)
         (c : RedisChannel) (status : otai_status_t)
         (kco : KeyOpFieldsValuesTuple)
         (rest : list (otai_status_t * KeyOpFieldsValuesTuple)),
    m_communicationChannel s = Some c ->
    responses s = ((status, kco) :: rest)%list ->
    status = OTAI_STATUS_SUCCESS \/ status = OTAI_STATUS_BUFFER_OVERFLOW ->
    kfvFieldsValues kco = []%list ->
    exists what : string,
      fst (get objectType objectId attr_list s) = Throws what.
Proof.
  intros objectType objectId attr_list s c status kco rest Hc Hr Hs Hv.
  rewrite (get_run _ _ _ _ _ Hc). cbv zeta.
  unfold waitForGetResponse, bind.
  rewrite (channel_wait_run _ _ c) by exact Hc.
  simpl. rewrite Hr. simpl. rewrite Hv.
  destruct Hs as [-> | ->]; simpl; eexists; reflexivity.
Qed.

(** ** The set path *)

Lemma isRedisAttribute_other_type objectType attr :
  objectType <> OTAI_OBJECT_TYPE_LINECARD ->
  isRedisAttribute objectType attr = false.
Proof.
  intros H. unfold isRedisAttribute. destruct attr as [a |]; [| reflexivity].
  apply Z.eqb_neq in H. rewrite H. reflexivity.
Qed.

Lemma isRedisAttribute_linecard a :
  isRedisAttribute OTAI_OBJECT_TYPE_LINECARD (Some a) =
  negb (attr_id a <? OTAI_LINECARD_ATTR_CUSTOM_RANGE_START).
Proof.
  unfold isRedisAttribute. rewrite Z.eqb_refl. simpl.
  destruct (attr_id a <? _); reflexivity.
Qed.

(** The round trip of [set] when the extension path is not taken. *)
Lemma set_round_trip objectType objectId a s c :
  isRedisAttribute objectType (Some a) = false ->
  m_communicationChannel s = Some c ->
  set objectType objectId (Some a) s =
    let key := make_key objectType (otai_serialize_object_id objectId) in
    let s1 :=
      set_trace
        (trace s ++
         [Log LOG_DEBUG "generic set key: %s, fields: %zu";
          ChannelSet key (serialize_attr_list objectType [a] false)
            REDIS_ASIC_STATE_COMMAND_SET;
          ChannelWait REDIS_ASIC_STATE_COMMAND_GETRESPONSE]) s in
    match responses s with
    | [] => (Blocks, s1)
    | r :: rest =>
        let s2 := set_responses rest s1 in
        (Returns (fst r),
         if (objectType =? OTAI_OBJECT_TYPE_LINECARD)
            && otai_status_eqb (fst r) OTAI_STATUS_SUCCESS
         then
           match m_linecard s with
           | Some l =>
               set_linecard (Some (updateNotifications [a] l))
                 (set_trace (trace s2 ++ [LinecardUpdateNotifications [a]]) s2)
           | None => s2
           end
         else s2)
    end%list.
Proof.
  intros Hx Hc. unfold set. rewrite Hx.
  unfold set_serialized, waitForResponse, channel_wait, channel_set, channel,
    bind, gets, deref, emit, modify, ret.
  simpl. repeat (rewrite Hc; simpl). repeat rewrite <- app_assoc. simpl.
  destruct (responses s) as [| r rest]; [reflexivity |]. simpl.
  destruct ((objectType =? OTAI_OBJECT_TYPE_LINECARD)
            && otai_status_eqb (fst r) OTAI_STATUS_SUCCESS); [| reflexivity].
  simpl. destruct (m_linecard s); simpl; repeat rewrite <- app_assoc;
    reflexivity.
Qed.

(** C3. A [set] on the linecard type whose attribute id is at or above
    [OTAI_LINECARD_ATTR_CUSTOM_RANGE_START] puts no command on the channel
    and performs no wait, whatever linecard is tracked: for
    [OTAI_REDIS_LINECARD_ATTR_FLUSH] the channel is flushed and
    [OTAI_STATUS_SUCCESS] returned, the flush being the only effect; for any
    other id [OTAI_STATUS_FAILURE] is returned and only an error is logged.
    On any other object type the attribute is not an extension attribute,
    whatever its id, and [set] sends the SET command and waits. *)
Theorem set_extension_attribute :
  forall (objectType : otai_object_type_t) (objectId : otai_object_id_t)
         (a : otai_attribute_t) (s : RedisRemoteOtaiInterface),
    (OTAI_LINECARD_ATTR_CUSTOM_RANGE_START <= attr_id a ->
     attr_id a = OTAI_REDIS_LINECARD_ATTR_FLUSH ->
     m_communicationChannel s <> None ->
     set OTAI_OBJECT_TYPE_LINECARD objectId (Some a) s =
       (Returns OTAI_STATUS_SUCCESS, set_trace (trace s ++ [ChannelFlush]) s)) /\
    (OTAI_LINECARD_ATTR_CUSTOM_RANGE_START <= attr_id a ->
     attr_id a <> OTAI_REDIS_LINECARD_ATTR_FLUSH ->
     set OTAI_OBJECT_TYPE_LINECARD objectId (Some a) s =
       (Returns OTAI_STATUS_FAILURE,
        set_trace
          (trace s ++ [Log LOG_ERROR "unknown redis extension attribute: %d"]) s)) /\
    (objectType <> OTAI_OBJECT_TYPE_LINECARD ->
     isRedisAttribute objectType (Some a) = false /\
     (m_communicationChannel s <> None ->
      set objectType objectId (Some a) s =
        let s1 :=
          set_trace
            (trace s ++
             [Log LOG_DEBUG "generic set key: %s, fields: %zu";
              ChannelSet (make_key objectType (otai_serialize_object_id objectId))
                (serialize_attr_list objectType [a] false)
                REDIS_ASIC_STATE_COMMAND_SET;
              ChannelWait REDIS_ASIC_STATE_COMMAND_GETRESPONSE]) s in
        match responses s with
        | [] => (Blocks, s1)
        | r :: rest => (Returns (fst r), set_responses rest s1)
        end%list)).
Proof.
  intros objectType objectId a s.
  split; [| split].
  - intros Hrange Hflush Hc. unfold set.
    rewrite isRedisAttribute_linecard.
    replace (attr_id a <? OTAI_LINECARD_ATTR_CUSTOM_RANGE_START) with false
      by (symmetry; apply Z.ltb_ge; exact Hrange).
    simpl. unfold setRedisExtensionAttribute.
    rewrite Hflush, Z.eqb_refl.
    unfold channel_flush, channel, bind, gets, deref, emit, modify, ret.
    simpl. destruct (m_communicationChannel s); [reflexivity | contradiction].
  - intros Hrange Hflush. unfold set.
    rewrite isRedisAttribute_linecard.
    replace (attr_id a <? OTAI_LINECARD_ATTR_CUSTOM_RANGE_START) with false
      by (symmetry; apply Z.ltb_ge; exact Hrange).
    simpl. unfold setRedisExtensionAttribute.
    apply Z.eqb_neq in Hflush. rewrite Hflush. reflexivity.
  - intros Htype.
    pose proof (isRedisAttribute_other_type objectType (Some a) Htype) as Hx.
    split; [exact Hx |]. intros Hc.
    destruct (m_communicationChannel s) as [c |] eqn:Hch; [| contradiction].
    rewrite (set_round_trip _ _ _ _ _ Hx Hch). cbv zeta.
    apply Z.eqb_neq in Htype. rewrite Htype. simpl.
    destruct (responses s); reflexivity.
Qed.

(** C10. A [set] of an ordinary attribute on the linecard type, answered
    with [OTAI_STATUS_SUCCESS] while no linecard is tracked, returns
    [OTAI_STATUS_SUCCESS]; its only effects are the SET command, the wait
    and the consumed answer, so the callback table is not touched and no
    linecard is tracked afterwards. *)
Theorem set_linecard_untracked :
  forall (objectId : otai_object_id_t) (a : otai_attribute_t)
         (s : RedisRemoteOtaiInterface) (c : RedisChannel)
         (kco : KeyOpFieldsValuesTuple)
         (rest : list (otai_status_t * KeyOpFieldsValuesTuple)),
    attr_id a < OTAI_LINECARD_ATTR_CUSTOM_RANGE_START ->
    m_linecard s = None ->
    m_communicationChannel s = Some c ->
    responses s = ((OTAI_STATUS_SUCCESS, kco) :: rest)%list ->
    set OTAI_OBJECT_TYPE_LINECARD objectId (Some a) s =
      (Returns OTAI_STATUS_SUCCESS,
       set_responses rest
         (set_trace
            (trace s ++
             [Log LOG_DEBUG "generic set key: %s, fields: %zu";
              ChannelSet
                (make_key OTAI_OBJECT_TYPE_LINECARD (otai_serialize_object_id objectId))
                (serialize_attr_list OTAI_OBJECT_TYPE_LINECARD [a] false)
                REDIS_ASIC_STATE_COMMAND_SET;
              ChannelWait REDIS_ASIC_STATE_COMMAND_GETRESPONSE]) s)) /\
    m_linecard (snd (set OTAI_OBJECT_TYPE_LINECARD objectId (Some a) s)) = None.
Proof.
  intros objectId a s c kco rest Hid Hl Hc Hr.
  assert (Hx : isRedisAttribute OTAI_OBJECT_TYPE_LINECARD (Some a) = false).
  { rewrite isRedisAttribute_linecard.
    apply Z.ltb_lt in Hid. rewrite Hid. reflexivity. }
  rewrite (set_round_trip _ _ _ _ _ Hx Hc). cbv zeta.
  rewrite Hr, Hl, Z.eqb_refl. simpl. split; [reflexivity | exact Hl].
Qed.

(** ** The create path *)

(** What [create] adds to the trace, case by case: one error line when the
    allocation fails; one notice when there is no channel to call; otherwise
    the CREATE command with the serialized attributes, or with the NULL
    pair when there are none, followed by the wait. *)
Lemma create_events objectType linecardId attr_list s :
  events_since s (snd (create objectType linecardId attr_list s)) =
    let objectId := fst (create_allocation objectType linecardId s) in
    let entry :=
      match serialize_attr_list objectType attr_list false with
      | [] => [("NULL", "NULL")]
      | f :: fs => f :: fs
      end%list in
    if objectId =? OTAI_NULL_OBJECT_ID then
      [Log LOG_ERROR
         (if objectType =? OTAI_OBJECT_TYPE_LINECARD
          then "linecard ID allocation failed"
          else "failed to create %s, with linecard id: %s")]
    else
      match m_communicationChannel s with
      | None => [Log LOG_NOTICE "generic create key: %s, fields: %zu"]
      | Some _ =>
          [Log LOG_NOTICE "generic create key: %s, fields: %zu";
           ChannelSet (make_key objectType (otai_serialize_object_id objectId))
             entry REDIS_ASIC_STATE_COMMAND_CREATE;
           ChannelWait REDIS_ASIC_STATE_COMMAND_GETRESPONSE] ++
          match responses s with
          | [] => []
          | _ :: _ => [Log LOG_NOTICE "generic create key end: %s, fields: %zu"]
          end
      end%list.
Proof.
  apply events_since_app.
  unfold create, create_allocation, create_serialized, waitForResponse,
    channel_wait, channel_set, channel, bind, gets, deref, emit, modify, ret.
  cbv zeta.
  destruct (objectType =? OTAI_OBJECT_TYPE_LINECARD) eqn:Ht; simpl;
    [destruct (allocateNewLinecardObjectId _) as [oid m'] eqn:Ha
    |destruct (allocateNewObjectId _ _ _) as [oid m'] eqn:Ha]; simpl;
    (destruct (oid =? OTAI_NULL_OBJECT_ID) eqn:Hn; simpl; [reflexivity |]);
    (destruct (m_communicationChannel s) eqn:Hc; simpl;
     repeat (rewrite Hc; simpl); [| reflexivity]);
    (destruct (responses s) as [| resp rest] eqn:Hr; simpl;
     repeat (rewrite Hr; simpl));
    try (destruct (otai_status_eqb (fst resp) OTAI_STATUS_SUCCESS); simpl);
    destruct (serialize_attr_list _ _ _); simpl;
    repeat rewrite <- app_assoc; reflexivity.
Qed.

(** C7. No [create] call puts a CREATE command with zero fields on the
    channel.  When the serialized attribute list is empty, every CREATE
    command of the call carries exactly the pair ("NULL", "NULL"); and with
    an allocated id and a channel the call issues exactly one such
    command. *)
Theorem create_never_without_fields :
  forall (objectType : otai_object_type_t) (linecardId : otai_object_id_t)
         (attr_list : list otai_attribute_t) (s : RedisRemoteOtaiInterface),
    let issued :=
      created_fields
        (events_since s (snd (create objectType linecardId attr_list s))) in
    Forall (fun values => values <> []%list) issued /\
    (serialize_attr_list objectType attr_list false = []%list ->
     Forall (fun values => values = [("NULL", "NULL")]%list) issued) /\
    (serialize_attr_list objectType attr_list false = []%list ->
     fst (create_allocation objectType linecardId s) <> OTAI_NULL_OBJECT_ID ->
     m_communicationChannel s <> None ->
     issued = [[("NULL", "NULL")]]%list).
Proof.
  intros objectType linecardId attr_list s issued. subst issued.
  rewrite create_events. cbv zeta.
  destruct (fst (create_allocation objectType linecardId s) =? OTAI_NULL_OBJECT_ID)
    eqn:Hn.
  - simpl. repeat split; try constructor.
    intros _ Hnull. apply Z.eqb_eq in Hn. contradiction.
  - destruct (m_communicationChannel s) as [c |].
    + assert (Ht : created_fields
                     match responses s with
                     | [] => []
                     | _ :: _ => [Log LOG_NOTICE "generic create key end: %s, fields: %zu"]
                     end%list = []%list)
        by (destruct (responses s); reflexivity).
      simpl. rewrite Ht.
      destruct (serialize_attr_list objectType attr_list false) as [| f fs].
      * repeat split; repeat constructor. discriminate.
      * repeat split; repeat constructor; try discriminate.
    + simpl. repeat split; try constructor.
      intros _ _ Hc. contradiction.
Qed.

(** ** What [get] transmits *)

(** What [get] adds to the trace: the GET command carries the
    serialization of the buffer as [clearOidValues] left it. *)
Lemma get_events objectType objectId attr_list s :
  events_since s (snd (get objectType objectId attr_list s)) =
    match m_communicationChannel s with
    | None => [Log LOG_DEBUG "generic get key: %s, fields: %lu"]
    | Some _ =>
        [Log LOG_DEBUG "generic get key: %s, fields: %lu";
         ChannelSet (make_key objectType (otai_serialize_object_id objectId))
           (serialize_attr_list objectType (clearOidValues objectType attr_list) false)
           REDIS_ASIC_STATE_COMMAND_GET;
         ChannelWait REDIS_ASIC_STATE_COMMAND_GETRESPONSE]
    end%list.
Proof.
  apply events_since_app.
  unfold get, get_serialized, waitForGetResponse, channel_wait, channel_set,
    channel, bind, gets, deref, emit, modify, ret, throw.
  cbv zeta.
  destruct (m_communicationChannel s) eqn:Hc; simpl;
    repeat (rewrite Hc; simpl); [| reflexivity].
  destruct (responses s) as [| [status kco] rest] eqn:Hr; simpl;
    repeat (rewrite Hr; simpl);
    [| destruct status; simpl;
       try destruct (List.length (kfvFieldsValues kco) =? 0)%nat; simpl];
    repeat rewrite <- app_assoc; reflexivity.
Qed.

(** C8.  [get] runs [clearOidValues] on the caller's buffer before anything
    is serialized: in the cleared buffer every object-id list holds null
    ids only, the attribute ids are those the caller gave, and every GET
    command of the call carries the serialization of the cleared buffer,
    never of the buffer as supplied.  With a channel the call issues
    exactly one GET command. *)
Theorem get_sends_cleared_oid_lists :
  forall (objectType : otai_object_type_t) (objectId : otai_object_id_t)
         (attr_list : list otai_attribute_t) (s : RedisRemoteOtaiInterface),
    let cleared := clearOidValues objectType attr_list in
    let sent :=
      get_fields (events_since s (snd (get objectType objectId attr_list s))) in
    (forall (a : otai_attribute_t) (l : list otai_object_id_t),
       In a cleared -> attr_value a = AttrValue_objlist l -> oid_list_is_null l) /\
    map attr_id cleared = map attr_id attr_list /\
    Forall (fun values => values = serialize_attr_list objectType cleared false) sent /\
    (m_communicationChannel s <> None ->
     sent = [serialize_attr_list objectType cleared false]%list).
Proof.
  intros objectType objectId attr_list s cleared sent.
  split; [| split].
  - intros a l Hin Hv. unfold cleared, clearOidValues in Hin.
    apply in_map_iff in Hin. destruct Hin as [a0 [Ha0 _]].
    destruct (attr_value a0) eqn:Hv0; subst a; simpl in Hv.
    + rewrite Hv0 in Hv. discriminate.
    + rewrite Hv0 in Hv. discriminate.
    + injection Hv as <-. unfold oid_list_is_null.
      apply Forall_forall. intros oid Hoid.
      apply in_map_iff in Hoid. destruct Hoid as [x [Hx _]]. symmetry. exact Hx.
  - unfold cleared, clearOidValues. rewrite map_map.
    apply map_ext. intros a. destruct (attr_value a); reflexivity.
  - assert (Hsent :
      sent = match m_communicationChannel s with
             | Some _ => [serialize_attr_list objectType cleared false]
             | None => []
             end%list).
    { unfold sent. rewrite get_events. fold cleared.
      destruct (m_communicationChannel s); reflexivity. }
    rewrite Hsent. split.
    + destruct (m_communicationChannel s); repeat constructor.
    + intros Hc. destruct (m_communicationChannel s); [reflexivity | contradiction].
Qed.

(** ** Statistics *)

(** C4. When the answer to a [getStats] arrives with
    [OTAI_STATUS_SUCCESS] and a number of field/value pairs different from
    the number of counters asked for, [getStats] throws the count error;
    no value is decoded and no status is returned. *)
Theorem getStats_count_mismatch_throws :
  forall (object_type : otai_object_type_t) (object_id : otai_object_id_t)
         (counter_ids : list otai_stat_id_t) (s : RedisRemoteOtaiInterface)
         (c : RedisChannel) (kco : KeyOpFieldsValuesTuple)
         (rest : list (otai_status_t * KeyOpFieldsValuesTuple)),
    m_communicationChannel s = Some c ->
    responses s = ((OTAI_STATUS_SUCCESS, kco) :: rest)%list ->
    List.length (kfvFieldsValues kco) <> List.length counter_ids ->
    fst (getStats object_type object_id counter_ids s) =
      Throws "wrong number of counters, got %zu, expected %u".
Proof.
  intros object_type object_id counter_ids s c kco rest Hc Hr Hn.
  unfold getStats, waitForGetStatsResponse, channel_wait, channel_set, channel,
    bind, gets, deref, emit, modify, ret.
  simpl. repeat (rewrite Hc; simpl). rewrite Hr. simpl.
  apply Nat.eqb_neq in Hn. rewrite Hn. reflexivity.
Qed.

(** ** Notifications *)

Lemma syncProcessNotification_run notification s :
  syncProcessNotification notification s =
    match m_meta s with
    | None =>
        (Returns no_notifications,
         set_trace (trace s ++ [Log LOG_WARN "meta pointer expired"]) s)
    | Some meta =>
        let s1 :=
          set_meta (Some (processMetadata notification meta))
            (set_trace (trace s ++ [MetaProcess notification]) s) in
        match m_linecard s with
        | Some l => (Returns (getLinecardNotifications l), s1)
        | None =>
            (Returns no_notifications,
             set_trace
               (trace s1 ++
                [Log LOG_WARN
                   "linecard %s not present in container, returning empty linecard notifications"])
               s1)
        end
    end.
Proof.
  unfold syncProcessNotification, bind, gets, emit, modify, ret.
  destruct (m_meta s); simpl; [| reflexivity].
  destruct (m_linecard s); reflexivity.
Qed.

Lemma executeCallback_no_notifications notification s :
  executeCallback notification no_notifications s = (Returns tt, s).
Proof.
  unfold executeCallback, slot_pointer.
  destruct (notificationSlot notification); reflexivity.
Qed.

(** C5. A [remove] on the linecard type that returns
    [OTAI_STATUS_SUCCESS] leaves no linecard tracked.  While no linecard is
    tracked, [syncProcessNotification] returns the table of four null
    pointers for every notification, and handling a message through it
    returns without calling any user callback and without tracking
    anything. *)
Theorem remove_linecard_drops_notifications :
  forall (objectId : otai_object_id_t) (notification : Notification)
         (name serializedNotification : string) (values : list FieldValueTuple)
         (s : RedisRemoteOtaiInterface),
    (fst (remove OTAI_OBJECT_TYPE_LINECARD objectId s) = Returns OTAI_STATUS_SUCCESS ->
     m_linecard (snd (remove OTAI_OBJECT_TYPE_LINECARD objectId s)) = None) /\
    (m_linecard s = None ->
     fst (syncProcessNotification notification s) = Returns no_notifications /\
     m_linecard (snd (syncProcessNotification notification s)) = None) /\
    (m_linecard s = None ->
     let r := handleNotification syncProcessNotification
                name serializedNotification values s in
     fst r = Returns tt /\
     m_linecard (snd r) = None /\
     Forall (fun e => is_user_callback e = false) (events_since s (snd r))).
Proof.
  intros objectId notification name body values s.
  split; [| split].
  - unfold remove, remove_serialized, waitForResponse, channel_wait,
      channel_del, channel, bind, gets, deref, emit, modify, ret.
    simpl. destruct (m_communicationChannel s) eqn:Hc; simpl;
      repeat (rewrite Hc; simpl); [| discriminate].
    destruct (responses s) as [| resp rest] eqn:Hr; simpl;
      repeat (rewrite Hr; simpl); [discriminate |].
    rewrite Z.eqb_refl. simpl.
    destruct (otai_status_eqb (fst resp) OTAI_STATUS_SUCCESS) eqn:Hs; simpl.
    + reflexivity.
    + intros H. injection H as H. rewrite H in Hs. discriminate.
  - intros Hl. rewrite syncProcessNotification_run.
    destruct (m_meta s); cbv zeta; rewrite ?Hl; simpl; split; auto.
  - intros Hl. cbv zeta. unfold handleNotification.
    destruct (NotificationFactory_deserialize name body) as [n |].
    + unfold bind. rewrite syncProcessNotification_run.
      destruct (m_meta s); cbv zeta; rewrite ?Hl;
        rewrite executeCallback_no_notifications; simpl;
        (split; [reflexivity | split; [exact Hl |]]).
      * erewrite events_since_app;
          [| simpl; rewrite <- app_assoc; reflexivity].
        repeat constructor.
      * erewrite events_since_app; [| simpl; reflexivity].
        repeat constructor.
    + simpl. split; [reflexivity | split; [exact Hl |]].
      erewrite events_since_app; [| rewrite app_nil_r; reflexivity].
      constructor.
Qed.

(** C6. When the metadata pointer can no longer be locked,
    [syncProcessNotification] logs a warning and returns the table of four
    null pointers: nothing is thrown, the metadata is not processed and the
    object is otherwise unchanged.  Handling a message through it returns
    normally, with that warning as the only effect when the message decodes
    and no effect when it does not; no user callback is called. *)
Theorem expired_meta_drops_notification :
  forall (notification : Notification) (name serializedNotification : string)
         (values : list FieldValueTuple) (s : RedisRemoteOtaiInterface),
    m_meta s = None ->
    syncProcessNotification notification s =
      (Returns no_notifications,
       set_trace (trace s ++ [Log LOG_WARN "meta pointer expired"]) s) /\
    handleNotification syncProcessNotification name serializedNotification values s =
      (Returns tt,
       match NotificationFactory_deserialize name serializedNotification with
       | Some _ => set_trace (trace s ++ [Log LOG_WARN "meta pointer expired"]) s
       | None => s
       end).
Proof.
  intros notification name body values s Hm. split.
  - rewrite syncProcessNotification_run, Hm. reflexivity.
  - unfold handleNotification.
    destruct (NotificationFactory_deserialize name body) as [n |]; [| reflexivity].
    unfold bind. rewrite syncProcessNotification_run, Hm.
    apply executeCallback_no_notifications.
Qed.

(** * Beyond the round trip of one call *)

(** ** Parts of the object a computation leaves alone *)

Lemma preserves_ret {A B} (f : RedisRemoteOtaiInterface -> B) (a : A) :
  preserves f (ret a).
Proof. intros s. reflexivity. Qed.

Lemma preserves_throw {A B} (f : RedisRemoteOtaiInterface -> B) what :
  preserves f (@throw E A what).
Proof. intros s. reflexivity. Qed.

Lemma preserves_gets {A B} (f : RedisRemoteOtaiInterface -> B)
    (g : RedisRemoteOtaiInterface -> A) :
  preserves f (gets g).
Proof. intros s. reflexivity. Qed.

Lemma preserves_deref {A B} (f : RedisRemoteOtaiInterface -> B) (p : option A) :
  preserves f (deref p).
Proof. intros s. destruct p; reflexivity. Qed.

Lemma preserves_modify {B} (f : RedisRemoteOtaiInterface -> B) g :
  (forall s, f (g s) = f s) -> preserves f (modify g).
Proof. intros H s. exact (H s). Qed.

Lemma preserves_bind {A B C} (f : RedisRemoteOtaiInterface -> C)
    (m : M A) (k : A -> M B) :
  preserves f m -> (forall a, preserves f (k a)) -> preserves f (bind m k).
Proof.
  intros Hm Hk s. unfold bind.
  specialize (Hm s). destruct (m s) as [[a | w | |] s1]; simpl in Hm; simpl;
    try exact Hm.
  rewrite (Hk a s1). exact Hm.
Qed.

Lemma preserves_pop_response {B} (f : RedisRemoteOtaiInterface -> B) :
  (forall rest s, f (set_responses rest s) = f s) ->
  preserves f
    (fun s => match responses s with
              | [] => (Blocks, s)
              | r :: rest => (Returns r, set_responses rest s)
              end%list).
Proof. intros H s. destruct (responses s); simpl; [reflexivity | apply H]. Qed.

Ltac frame_step :=
  first
    [ apply preserves_ret | apply preserves_throw | apply preserves_gets
    | apply preserves_deref
    | apply preserves_pop_response; intros ? ?; reflexivity
    | apply preserves_modify; intros ?; reflexivity
    | apply preserves_bind; [| intros ?]
    | match goal with
      | |- preserves _ (if ?b then _ else _) => destruct b
      | |- preserves _ (match ?x with _ => _ end) => destruct x
      end ].

Ltac frame := cbv zeta; repeat frame_step.

Lemma preserves_decode_counters {B} (f : RedisRemoteOtaiInterface -> B)
    object_type counter_ids :
  forall values, preserves f (decode_counters object_type counter_ids values).
Proof.
  induction counter_ids as [| id ids IH]; intros values; simpl.
  - apply preserves_ret.
  - destruct values as [| v vs]; [apply preserves_ret |].
    frame. apply IH.
Qed.

(** ** Construction and destruction *)

(** X1. Whatever the members hold before, the constructor returns with
    the interface initialized, holding a channel with buffering switched
    off, tracking no linecard, and with an id manager made from a new index
    generator on the "ASIC_DB" connection; it logs one notice and touches
    neither the metadata pointer nor the pending answers. *)
Theorem constructor_initializes :
  forall s : RedisRemoteOtaiInterface,
    new_RedisRemoteOtaiInterface s =
      (Returns tt,
       mk_interface true
         (Some (setBuffered false (make_RedisChannel "ASIC_DB")))
         (mk_db "ASIC_DB" 0)
         (make_RedisVidIndexGenerator (mk_db "ASIC_DB" 0) REDIS_KEY_VIDCOUNTER)
         (make_VirtualObjectIdManager
            (make_RedisVidIndexGenerator (mk_db "ASIC_DB" 0) REDIS_KEY_VIDCOUNTER))
         None (m_meta s) (responses s)
         (trace s ++ [Log LOG_NOTICE "clearing local state"])) /\
    tracking_invariant (snd (new_RedisRemoteOtaiInterface s)).
Proof.
  intros s.
  assert (Hrun : new_RedisRemoteOtaiInterface s =
      (Returns tt,
       mk_interface true
         (Some (setBuffered false (make_RedisChannel "ASIC_DB")))
         (mk_db "ASIC_DB" 0)
         (make_RedisVidIndexGenerator (mk_db "ASIC_DB" 0) REDIS_KEY_VIDCOUNTER)
         (make_VirtualObjectIdManager
            (make_RedisVidIndexGenerator (mk_db "ASIC_DB" 0) REDIS_KEY_VIDCOUNTER))
         None (m_meta s) (responses s)
         (trace s ++ [Log LOG_NOTICE "clearing local state"]))) by reflexivity.
  split; [exact Hrun |]. rewrite Hrun. simpl.
  split; [split |]; simpl; intros H; try reflexivity; discriminate.
Qed.

(** X2. The destructor leaves the interface uninitialized.  On an
    initialized one it runs [uninitialize]: the channel and the tracked
    linecard are dropped.  On an uninitialized one it does nothing at all;
    in particular it does not log the "not initialized" error that a direct
    [uninitialize] would. *)
Theorem destructor_uninitializes :
  forall s : RedisRemoteOtaiInterface,
    fst (delete_RedisRemoteOtaiInterface s) = Returns tt /\
    m_initialized (snd (delete_RedisRemoteOtaiInterface s)) = false /\
    (m_initialized s = true ->
     m_communicationChannel (snd (delete_RedisRemoteOtaiInterface s)) = None /\
     m_linecard (snd (delete_RedisRemoteOtaiInterface s)) = None) /\
    (m_initialized s = false -> snd (delete_RedisRemoteOtaiInterface s) = s).
Proof.
  intros s.
  unfold delete_RedisRemoteOtaiInterface, uninitialize, clear_local_state,
    bind, gets, emit, modify, ret.
  destruct (m_initialized s) eqn:Hini; simpl; rewrite ?Hini; simpl.
  - split; [reflexivity | split; [reflexivity | split]].
    + intros _. split; reflexivity.
    + intros Hf. discriminate Hf.
  - split; [reflexivity | split; [reflexivity | split]].
    + intros Ht. discriminate Ht.
    + intros _. reflexivity.
Qed.

(** X3. A rejected lifecycle call changes nothing but the log:
    [initialize] on an initialized interface adds its error line,
    [uninitialize] on an uninitialized one its "begin" notice and its
    error line; channel, linecard, id manager, metadata pointer and pending
    answers stay as they were. *)
Theorem rejected_lifecycle_call_only_logs :
  forall (flags : Z) (service_method_table : option unit)
         (s : RedisRemoteOtaiInterface),
    (m_initialized s = true ->
     initialize flags service_method_table s =
       (Returns OTAI_STATUS_FAILURE,
        set_trace (trace s ++ [Log LOG_ERROR "already initialized"]) s)) /\
    (m_initialized s = false ->
     uninitialize s =
       (Returns OTAI_STATUS_FAILURE,
        set_trace
          (trace s ++ [Log LOG_NOTICE "begin"; Log LOG_ERROR "not initialized"]) s)).
Proof.
  intros flags smt s.
  unfold initialize, uninitialize, bind, gets, emit, modify, ret.
  split; intros H; simpl; rewrite H; simpl; rewrite <- ?app_assoc; reflexivity.
Qed.

(** X4. A successful [uninitialize] resets the local state after dropping
    the channel: no linecard is tracked, the id manager is a new one made
    from the index generator the interface already had, and the database
    connection, the generator, the metadata pointer and the pending answers
    are kept. *)
Theorem uninitialize_resets_local_state :
  forall s : RedisRemoteOtaiInterface,
    m_initialized s = true ->
    uninitialize s =
      (Returns OTAI_STATUS_SUCCESS,
       mk_interface false None (m_db s) (m_redisVidIndexGenerator s)
         (make_VirtualObjectIdManager (m_redisVidIndexGenerator s))
         None (m_meta s) (responses s)
         (trace s ++
          [Log LOG_NOTICE "begin"; Log LOG_NOTICE "clearing local state";
           Log LOG_NOTICE "end"])).
Proof.
  intros s H.
  unfold uninitialize, clear_local_state, bind, gets, emit, modify, ret.
  simpl. rewrite H. simpl. unfold set_trace, set_initialized,
    set_virtualObjectIdManager, set_linecard, set_communicationChannel. simpl.
  repeat rewrite <- app_assoc. reflexivity.
Qed.

(** ** When the tracked linecard changes *)

Lemma otai_status_eqb_success status :
  otai_status_eqb status OTAI_STATUS_SUCCESS = true -> status = OTAI_STATUS_SUCCESS.
Proof. destruct status; simpl; intros H; try discriminate; reflexivity. Qed.

Lemma create_linecard_effect objectType linecardId attr_list s :
  m_linecard (snd (create objectType linecardId attr_list s)) = m_linecard s \/
  (objectType = OTAI_OBJECT_TYPE_LINECARD /\
   m_communicationChannel s <> None /\
   fst (create objectType linecardId attr_list s) =
     Returns (OTAI_STATUS_SUCCESS, fst (create_allocation objectType linecardId s)) /\
   m_linecard (snd (create objectType linecardId attr_list s)) =
     Some (make_Linecard (fst (create_allocation objectType linecardId s)) attr_list)).
Proof.
  unfold create, create_allocation, create_serialized, waitForResponse,
    channel_wait, channel_set, channel, bind, gets, deref, emit, modify, ret.
  cbv zeta.
  destruct (objectType =? OTAI_OBJECT_TYPE_LINECARD) eqn:Ht; simpl;
    [destruct (allocateNewLinecardObjectId _) as [oid m'] eqn:Ha
    |destruct (allocateNewObjectId _ _ _) as [oid m'] eqn:Ha]; simpl;
    (destruct (oid =? OTAI_NULL_OBJECT_ID) eqn:Hn; simpl; [left; reflexivity |]);
    (destruct (m_communicationChannel s) eqn:Hc; simpl;
     repeat (rewrite Hc; simpl); [| left; reflexivity]);
    (destruct (responses s) as [| resp rest] eqn:Hr; simpl;
     repeat (rewrite Hr; simpl); [left; reflexivity |]);
    [| left; reflexivity].
  destruct (otai_status_eqb (fst resp) OTAI_STATUS_SUCCESS) eqn:Hs; simpl;
    [right | left; reflexivity].
  split; [apply Z.eqb_eq; exact Ht |].
  split; [discriminate |].
  rewrite (otai_status_eqb_success _ Hs). split; reflexivity.
Qed.

Lemma remove_linecard_effect objectType objectId s :
  m_linecard (snd (remove objectType objectId s)) = m_linecard s \/
  (objectType = OTAI_OBJECT_TYPE_LINECARD /\
   fst (remove objectType objectId s) = Returns OTAI_STATUS_SUCCESS /\
   m_linecard (snd (remove objectType objectId s)) = None).
Proof.
  unfold remove, remove_serialized, waitForResponse, channel_wait, channel_del,
    channel, bind, gets, deref, emit, modify, ret.
  simpl.
  destruct (m_communicationChannel s) eqn:Hc; simpl;
    repeat (rewrite Hc; simpl); [| left; reflexivity].
  destruct (responses s) as [| resp rest] eqn:Hr; simpl;
    repeat (rewrite Hr; simpl); [left; reflexivity |].
  destruct (objectType =? OTAI_OBJECT_TYPE_LINECARD) eqn:Ht; simpl;
    [| left; reflexivity].
  destruct (otai_status_eqb (fst resp) OTAI_STATUS_SUCCESS) eqn:Hs; simpl;
    [right | left; reflexivity].
  split; [apply Z.eqb_eq; exact Ht |].
  rewrite (otai_status_eqb_success _ Hs). split; reflexivity.
Qed.

Lemma set_linecard_effect objectType objectId attr s :
  m_linecard (snd (set objectType objectId attr s)) = m_linecard s \/
  (objectType = OTAI_OBJECT_TYPE_LINECARD /\
   m_communicationChannel s <> None /\
   fst (set objectType objectId attr s) = Returns OTAI_STATUS_SUCCESS /\
   exists a l,
     attr = Some a /\ m_linecard s = Some l /\
     m_linecard (snd (set objectType objectId attr s)) =
       Some (updateNotifications [a] l)).
Proof.
  unfold set. destruct (isRedisAttribute objectType attr) eqn:Hx.
  - left. unfold setRedisExtensionAttribute, channel_flush, channel, bind, gets,
      deref, emit, modify, ret.
    destruct attr as [a |]; [| reflexivity].
    destruct (attr_id a =? OTAI_REDIS_LINECARD_ATTR_FLUSH); [| reflexivity].
    simpl. destruct (m_communicationChannel s); reflexivity.
  - destruct attr as [a |]; [| left; reflexivity].
    destruct (m_communicationChannel s) as [c |] eqn:Hc.
    + pose proof (set_round_trip objectType objectId a s c Hx Hc) as Hrun.
      unfold set in Hrun. rewrite Hx in Hrun. rewrite Hrun. cbv zeta.
      destruct (responses s) as [| resp rest]; [left; reflexivity |].
      destruct (objectType =? OTAI_OBJECT_TYPE_LINECARD) eqn:Ht; simpl;
        [| left; reflexivity].
      destruct (otai_status_eqb (fst resp) OTAI_STATUS_SUCCESS) eqn:Hs; simpl;
        [| left; reflexivity].
      destruct (m_linecard s) as [l |] eqn:Hl; simpl; [right | left; exact Hl].
      split; [apply Z.eqb_eq; exact Ht |].
      split; [discriminate |].
      rewrite (otai_status_eqb_success _ Hs). split; [reflexivity |].
      exists a, l. repeat split; reflexivity.
    + left.
      unfold set_serialized, channel_set, channel, bind, gets, deref, emit,
        modify, ret.
      simpl. rewrite Hc. reflexivity.
Qed.

Lemma get_keeps_linecard objectType objectId attr_list :
  preserves m_linecard (get objectType objectId attr_list).
Proof.
  unfold get, get_serialized, waitForGetResponse, channel_set, channel_wait,
    channel. frame.
Qed.

Lemma getStats_keeps_linecard object_type object_id counter_ids :
  preserves m_linecard (getStats object_type object_id counter_ids).
Proof.
  unfold getStats, waitForGetStatsResponse, channel_set, channel_wait, channel.
  frame. apply preserves_decode_counters.
Qed.

Lemma clearStats_keeps_linecard object_type object_id counter_ids :
  preserves m_linecard (clearStats object_type object_id counter_ids).
Proof.
  unfold clearStats, waitForClearStatsResponse, channel_set, channel_wait,
    channel. frame.
Qed.

Lemma handleNotification_keeps_linecard name serializedNotification values :
  preserves m_linecard
    (handleNotification syncProcessNotification name serializedNotification values).
Proof.
  unfold handleNotification, syncProcessNotification, executeCallback. frame.
Qed.


(** ** The invariant along a sequence of calls *)

Lemma tracking_kept {A} (m : M A) s :
  keeps_lifecycle m ->
  (m_linecard (snd (m s)) = m_linecard s \/
   m_linecard (snd (m s)) = None \/
   m_communicationChannel s <> None) ->
  tracking_invariant s -> tracking_invariant (snd (m s)).
Proof.
  intros Hk Hl [Hi Hj]. split; [apply keeps_invariant; assumption |].
  destruct (Hk s) as [Hini _]. rewrite Hini. intros Hafter.
  destruct Hl as [Hl | [Hl | Hl]].
  - apply Hj. rewrite <- Hl. exact Hafter.
  - contradiction.
  - apply Hi. exact Hl.
Qed.

Lemma initialize_tracking flags service_method_table s :
  tracking_invariant s ->
  tracking_invariant (snd (initialize flags service_method_table s)).
Proof.
  intros [Hi Hj]. split; [apply initialize_invariant; exact Hi |].
  unfold initialize, clear_local_state, channel, bind, gets, deref, emit,
    modify, ret.
  destruct (m_initialized s) eqn:Hini; simpl; rewrite ?Hini; simpl.
  - intros _. reflexivity.
  - intros _. reflexivity.
Qed.

Lemma uninitialize_tracking s :
  tracking_invariant s -> tracking_invariant (snd (uninitialize s)).
Proof.
  intros [Hi Hj]. split; [apply uninitialize_invariant; exact Hi |].
  revert Hj.
  unfold uninitialize, clear_local_state, bind, gets, emit, modify, ret.
  destruct (m_initialized s) eqn:Hini; simpl; rewrite ?Hini; simpl.
  - intros _ H. exfalso. apply H. reflexivity.
  - rewrite ?Hini. intros Hj. exact Hj.
Qed.

Lemma delete_tracking s :
  tracking_invariant s ->
  tracking_invariant (snd (delete_RedisRemoteOtaiInterface s)).
Proof.
  intros Ht. pose proof (uninitialize_tracking s Ht) as Hu. revert Hu.
  unfold delete_RedisRemoteOtaiInterface, bind, gets, ret.
  destruct (m_initialized s) eqn:Hini; simpl.
  - destruct (uninitialize s) as [[a | w | |] s1]; simpl; intros Hu; exact Hu.
  - intros _. exact Ht.
Qed.

Lemma run_call_tracking call s :
  tracking_invariant s -> tracking_invariant (snd (run_call call s)).
Proof.
  intros Ht. destruct call; simpl.
  - apply initialize_tracking; exact Ht.
  - apply uninitialize_tracking; exact Ht.
  - exact Ht.
  - apply tracking_kept; [apply keeps_create | | exact Ht].
    destruct (create_linecard_effect objectType linecardId attr_list s)
      as [H | [_ [H _]]]; auto.
  - apply tracking_kept; [apply keeps_remove | | exact Ht].
    destruct (remove_linecard_effect objectType objectId s)
      as [H | [_ [_ H]]]; auto.
  - apply tracking_kept; [apply keeps_set | | exact Ht].
    destruct (set_linecard_effect objectType objectId attr s)
      as [H | [_ [H _]]]; auto.
  - apply tracking_kept; [apply keeps_get | | exact Ht].
    left. apply get_keeps_linecard.
  - apply tracking_kept; [apply keeps_getStats | | exact Ht].
    left. apply getStats_keeps_linecard.
  - apply (tracking_kept (getStatsExt object_type object_id counter_ids mode));
      [unfold getStatsExt; keeps | left; reflexivity | exact Ht].
  - apply tracking_kept; [apply keeps_clearStats | | exact Ht].
    left. apply clearStats_keeps_linecard.
  - exact Ht.
  - exact Ht.
  - exact Ht.
  - apply (tracking_kept (setMeta meta));
      [unfold setMeta; keeps | left; reflexivity | exact Ht].
  - apply tracking_kept; [apply keeps_handleNotification | | exact Ht].
    left. apply handleNotification_keeps_linecard.
  - apply delete_tracking; exact Ht.
Qed.

(** X6. From the constructed object on, whatever calls follow in whatever
    order and however each of them ends, the interface is initialized
    exactly when it holds a channel, and it tracks a linecard only while it
    is initialized.  In particular an initialized interface always has a
    channel to call, and an uninitialized one has no callback table to hand
    to a notification. *)
Theorem calls_keep_tracking_invariant :
  forall (calls : list api_call) (s0 : RedisRemoteOtaiInterface),
    let s := run_calls calls (snd (new_RedisRemoteOtaiInterface s0)) in
    (m_initialized s = true <-> m_communicationChannel s <> None) /\
    (m_initialized s = false -> m_linecard s = None).
Proof.
  intros calls s0.
  assert (Hinit : tracking_invariant (snd (new_RedisRemoteOtaiInterface s0))).
  { split; [split |]; simpl; intros H; try reflexivity; discriminate. }
  revert Hinit. generalize (snd (new_RedisRemoteOtaiInterface s0)) as s1.
  induction calls as [| call rest IH]; intros s1 Ht; simpl.
  - destruct Ht as [Hi Hj]. split; [exact Hi |].
    intros Hf. destruct (m_linecard s1) eqn:Hl; [| reflexivity].
    assert (Htrue : m_initialized s1 = true) by (apply Hj; discriminate).
    rewrite Hf in Htrue. discriminate.
  - pose proof (run_call_tracking call s1 Ht) as Hnext.
    destruct (fst (run_call call s1)).
    + apply IH. exact Hnext.
    + destruct Hnext as [Hi Hj]. split; [exact Hi |].
      intros Hf. destruct (m_linecard (snd (run_call call s1))) eqn:Hl;
        [| reflexivity].
      assert (Htrue : m_initialized (snd (run_call call s1)) = true)
        by (apply Hj; discriminate).
      rewrite Hf in Htrue. discriminate.
Qed.

(** ** One command, one wait *)

(** X7. [create] with an allocated id on an interface that holds a
    channel: the id manager is left as the allocation left it, one CREATE
    command keyed "<type>:<id>" is sent, and one wait follows.  With no
    answer to come the call blocks there.  Otherwise it consumes exactly
    the next answer and returns that answer's status, whatever it is,
    together with the allocated id; a linecard built from the id and the
    attributes becomes the tracked one when the type is the linecard type
    and the status is [OTAI_STATUS_SUCCESS], and only then. *)
Theorem create_round_trip :
  forall (objectType : otai_object_type_t) (linecardId : otai_object_id_t)
         (attr_list : list otai_attribute_t) (s : RedisRemoteOtaiInterface),
    fst (create_allocation objectType linecardId s) <> OTAI_NULL_OBJECT_ID ->
    m_communicationChannel s <> None ->
    create objectType linecardId attr_list s =
      let objectId := fst (create_allocation objectType linecardId s) in
      let entry :=
        match serialize_attr_list objectType attr_list false with
        | [] => [("NULL", "NULL")]
        | f :: fs => f :: fs
        end%list in
      let s1 :=
        set_trace
          (trace s ++
           [Log LOG_NOTICE "generic create key: %s, fields: %zu";
            ChannelSet (make_key objectType (otai_serialize_object_id objectId))
              entry REDIS_ASIC_STATE_COMMAND_CREATE;
            ChannelWait REDIS_ASIC_STATE_COMMAND_GETRESPONSE])
          (set_virtualObjectIdManager
             (snd (create_allocation objectType linecardId s)) s) in
      match responses s with
      | [] => (Blocks, s1)
      | r :: rest =>
          let s2 :=
            set_trace
              (trace s1 ++ [Log LOG_NOTICE "generic create key end: %s, fields: %zu"])
              (set_responses rest s1) in
          (Returns (fst r, objectId),
           if (objectType =? OTAI_OBJECT_TYPE_LINECARD)
              && otai_status_eqb (fst r) OTAI_STATUS_SUCCESS
           then set_linecard (Some (make_Linecard objectId attr_list)) s2
           else s2)
      end%list.
Proof.
  intros objectType linecardId attr_list s Hn Hc.
  apply Z.eqb_neq in Hn. revert Hn.
  unfold create, create_allocation, create_serialized, waitForResponse,
    channel_wait, channel_set, channel, bind, gets, deref, emit, modify, ret.
  cbv zeta.
  destruct (m_communicationChannel s) as [c |] eqn:Hch; [| contradiction].
  destruct (objectType =? OTAI_OBJECT_TYPE_LINECARD) eqn:Ht; simpl;
    [destruct (allocateNewLinecardObjectId _) as [oid m'] eqn:Ha
    |destruct (allocateNewObjectId _ _ _) as [oid m'] eqn:Ha]; simpl;
    intros Hn; rewrite Hn; simpl; repeat (rewrite Hch; simpl);
    (destruct (responses s) as [| resp rest] eqn:Hr; simpl;
     repeat (rewrite Hr; simpl));
    try (destruct (otai_status_eqb (fst resp) OTAI_STATUS_SUCCESS); simpl);
    destruct (serialize_attr_list _ _ _); simpl;
    repeat rewrite <- app_assoc; reflexivity.
Qed.

(** X8. [create] never gives an allocation back: however the call ends
    (null id, missing channel, a wait that blocks, any status from the
    backend), the id manager afterwards is the one the allocation left. *)
Theorem create_keeps_allocation :
  forall (objectType : otai_object_type_t) (linecardId : otai_object_id_t)
         (attr_list : list otai_attribute_t) (s : RedisRemoteOtaiInterface),
    m_virtualObjectIdManager (snd (create objectType linecardId attr_list s)) =
      snd (create_allocation objectType linecardId s).
Proof.
  intros objectType linecardId attr_list s.
  unfold create, create_allocation, create_serialized, waitForResponse,
    channel_wait, channel_set, channel, bind, gets, deref, emit, modify, ret.
  cbv zeta.
  destruct (objectType =? OTAI_OBJECT_TYPE_LINECARD) eqn:Ht; simpl;
    [destruct (allocateNewLinecardObjectId _) as [oid m'] eqn:Ha
    |destruct (allocateNewObjectId _ _ _) as [oid m'] eqn:Ha]; simpl;
    (destruct (oid =? OTAI_NULL_OBJECT_ID) eqn:Hn; simpl; [reflexivity |]);
    (destruct (m_communicationChannel s) eqn:Hc; simpl;
     repeat (rewrite Hc; simpl); [| reflexivity]);
    (destruct (responses s) as [| resp rest] eqn:Hr; simpl;
     repeat (rewrite Hr; simpl); [reflexivity |]);
    try (destruct (otai_status_eqb (fst resp) OTAI_STATUS_SUCCESS); simpl);
    reflexivity.
Qed.

(** X9. [remove] on an interface that holds a channel sends one REMOVE
    command keyed "<type>:<id>" and waits once.  With no answer to come
    it blocks there; otherwise it consumes exactly the next answer and
    returns its status, and the tracked linecard is dropped when the type
    is the linecard type and the status is [OTAI_STATUS_SUCCESS], and only
    then. *)
Theorem remove_round_trip :
  forall (objectType : otai_object_type_t) (objectId : otai_object_id_t)
         (s : RedisRemoteOtaiInterface),
    m_communicationChannel s <> None ->
    remove objectType objectId s =
      let s1 :=
        set_trace
          (trace s ++
           [Log LOG_NOTICE "generic remove key: %s";
            ChannelDel (make_key objectType (otai_serialize_object_id objectId))
              REDIS_ASIC_STATE_COMMAND_REMOVE;
            ChannelWait REDIS_ASIC_STATE_COMMAND_GETRESPONSE]) s in
      match responses s with
      | [] => (Blocks, s1)
      | r :: rest =>
          let s2 := set_responses rest s1 in
          (Returns (fst r),
           if (objectType =? OTAI_OBJECT_TYPE_LINECARD)
              && otai_status_eqb (fst r) OTAI_STATUS_SUCCESS
           then
             set_linecard None
               (set_trace (trace s2 ++ [Log LOG_NOTICE "removing linecard id %s"]) s2)
           else s2)
      end%list.
Proof.
  intros objectType objectId s Hc.
  unfold remove, remove_serialized, waitForResponse, channel_wait, channel_del,
    channel, bind, gets, deref, emit, modify, ret.
  cbv zeta.
  destruct (m_communicationChannel s) as [c |] eqn:Hch; [| contradiction].
  simpl. repeat (rewrite Hch; simpl).
  destruct (responses s) as [| resp rest] eqn:Hr; simpl;
    repeat (rewrite Hr; simpl); repeat rewrite <- app_assoc; [reflexivity |].
  destruct ((objectType =? OTAI_OBJECT_TYPE_LINECARD)
            && otai_status_eqb (fst resp) OTAI_STATUS_SUCCESS); simpl;
    repeat rewrite <- app_assoc; reflexivity.
Qed.

(** X10. [clearStats] on an interface that holds a channel sends one
    CLEAR_STATS command carrying the serialized counter ids and waits
    once; it blocks when no answer comes, and otherwise consumes exactly
    the next answer and returns its status unchanged.  Nothing else of the
    object changes. *)
Theorem clearStats_round_trip :
  forall (object_type : otai_object_type_t) (object_id : otai_object_id_t)
         (counter_ids : list otai_stat_id_t) (s : RedisRemoteOtaiInterface),
    m_communicationChannel s <> None ->
    clearStats object_type object_id counter_ids s =
      let s1 :=
        set_trace
          (trace s ++
           [Log LOG_DEBUG "generic clear stats key: %s, fields: %zu";
            ChannelSet (make_key object_type (otai_serialize_object_id object_id))
              (serialize_counter_id_list object_type counter_ids)
              REDIS_ASIC_STATE_COMMAND_CLEAR_STATS;
            ChannelWait REDIS_ASIC_STATE_COMMAND_GETRESPONSE]) s in
      match responses s with
      | [] => (Blocks, s1)
      | r :: rest => (Returns (fst r), set_responses rest s1)
      end%list.
Proof.
  intros object_type object_id counter_ids s Hc.
  unfold clearStats, waitForClearStatsResponse, channel_wait, channel_set,
    channel, bind, gets, deref, emit, modify, ret.
  cbv zeta.
  destruct (m_communicationChannel s) as [c |] eqn:Hch; [| contradiction].
  simpl. repeat (rewrite Hch; simpl).
  destruct (responses s) as [| resp rest] eqn:Hr; simpl;
    repeat (rewrite Hr; simpl); repeat rewrite <- app_assoc; reflexivity.
Qed.

(** ** What the answers are turned into *)

(** X11. [get] on an interface that holds a channel consumes exactly the
    next answer.  Under [OTAI_STATUS_SUCCESS] with a payload the buffer
    handed back is the payload decoded in full and transferred into the
    cleared buffer; under [OTAI_STATUS_BUFFER_OVERFLOW] with a payload the
    same is done in count-only mode; any other status is returned as it
    came, with the cleared buffer and no decoding, even when the payload is
    empty. *)
Theorem get_response_handling :
  forall (objectType : otai_object_type_t) (objectId : otai_object_id_t)
         (attr_list : list otai_attribute_t) (s : RedisRemoteOtaiInterface)
         (status : otai_status_t) (kco : KeyOpFieldsValuesTuple)
         (rest : list (otai_status_t * KeyOpFieldsValuesTuple)),
    m_communicationChannel s <> None ->
    responses s = ((status, kco) :: rest)%list ->
    let cleared := clearOidValues objectType attr_list in
    let values := kfvFieldsValues kco in
    let s1 :=
      set_responses rest
        (set_trace
           (trace s ++
            [Log LOG_DEBUG "generic get key: %s, fields: %lu";
             ChannelSet (make_key objectType (otai_serialize_object_id objectId))
               (serialize_attr_list objectType cleared false)
               REDIS_ASIC_STATE_COMMAND_GET;
             ChannelWait REDIS_ASIC_STATE_COMMAND_GETRESPONSE]) s) in
    (status = OTAI_STATUS_SUCCESS -> values <> []%list ->
     get objectType objectId attr_list s =
       (Returns
          (OTAI_STATUS_SUCCESS,
           transfer_attributes objectType
             (OtaiAttributeList objectType values false) cleared false), s1)) /\
    (status = OTAI_STATUS_BUFFER_OVERFLOW -> values <> []%list ->
     get objectType objectId attr_list s =
       (Returns
          (OTAI_STATUS_BUFFER_OVERFLOW,
           transfer_attributes objectType
             (OtaiAttributeList objectType values true) cleared true), s1)) /\
    (status <> OTAI_STATUS_SUCCESS -> status <> OTAI_STATUS_BUFFER_OVERFLOW ->
     get objectType objectId attr_list s = (Returns (status, cleared), s1)).
Proof.
  intros objectType objectId attr_list s status kco rest Hc Hr cleared values s1.
  subst values.
  destruct (m_communicationChannel s) as [c |] eqn:Hch; [| contradiction].
  rewrite (get_run _ _ _ _ c Hch). cbv zeta. fold cleared.
  unfold waitForGetResponse, bind.
  rewrite (channel_wait_run _ _ c) by exact Hch. cbv zeta.
  simpl responses. rewrite Hr. cbn [fst snd].
  assert (Hs1 :
    set_responses rest
      (set_trace
         (trace
            (set_trace
               (trace s ++
                [Log LOG_DEBUG "generic get key: %s, fields: %lu";
                 ChannelSet (make_key objectType (otai_serialize_object_id objectId))
                   (serialize_attr_list objectType cleared false)
                   REDIS_ASIC_STATE_COMMAND_GET]) s) ++
          [ChannelWait REDIS_ASIC_STATE_COMMAND_GETRESPONSE])
         (set_trace
            (trace s ++
             [Log LOG_DEBUG "generic get key: %s, fields: %lu";
              ChannelSet (make_key objectType (otai_serialize_object_id objectId))
                (serialize_attr_list objectType cleared false)
                REDIS_ASIC_STATE_COMMAND_GET]) s)) = s1).
  { unfold s1, set_responses, set_trace. simpl. rewrite <- app_assoc. reflexivity. }
  rewrite Hs1.
  split; [| split].
  - intros -> Hv. destruct (kfvFieldsValues kco); [contradiction | reflexivity].
  - intros -> Hv. destruct (kfvFieldsValues kco); [contradiction | reflexivity].
  - intros H1 H2. destruct status; try reflexivity; contradiction.
Qed.

(** ** Statistics, continued *)

Lemma decode_counters_state object_type counter_ids :
  forall values s, snd (decode_counters object_type counter_ids values s) = s.
Proof.
  intros values s.
  exact (preserves_decode_counters (fun x => x) object_type counter_ids values s).
Qed.

Lemma decode_counters_sound object_type counter_ids :
  forall values s counters s',
    decode_counters object_type counter_ids values s = (Returns counters, s') ->
    Forall2 (counter_decoded object_type) (combine counter_ids values) counters.
Proof.
  induction counter_ids as [| id ids IH]; intros values s counters s'; simpl.
  - unfold ret. intros H. injection H as <- _. constructor.
  - destruct values as [| v vs]; simpl.
    + unfold ret. intros H. injection H as <- _. constructor.
    + unfold bind, ret, throw.
      destruct (statvaluetype object_type id) eqn:Hk.
      * destruct (stoull (fvValue v)) as [u |] eqn:Hu; [| discriminate].
        destruct (decode_counters object_type ids vs s) as [[cs | w | |] s1] eqn:Hd;
          intros H; try discriminate.
        injection H as <- _. constructor; [| exact (IH vs s cs s1 Hd)].
        unfold counter_decoded. simpl. rewrite Hk.
        exists u. split; [exact Hu | reflexivity].
      * destruct (stod (fvValue v)) as [d |] eqn:Hu; [| discriminate].
        destruct (decode_counters object_type ids vs s) as [[cs | w | |] s1] eqn:Hd;
          intros H; try discriminate.
        injection H as <- _. constructor; [| exact (IH vs s cs s1 Hd)].
        unfold counter_decoded. simpl. rewrite Hk.
        exists d. split; [exact Hu | reflexivity].
      * destruct (decode_counters object_type ids vs s) as [[cs | w | |] s1] eqn:Hd;
          intros H; try discriminate.
        injection H as <- _. constructor; [| exact (IH vs s cs s1 Hd)].
        unfold counter_decoded. simpl. rewrite Hk. reflexivity.
Qed.

Lemma decode_counters_total object_type counter_ids :
  forall values s,
    Forall (counter_decodable object_type) (combine counter_ids values) ->
    exists counters,
      decode_counters object_type counter_ids values s = (Returns counters, s).
Proof.
  induction counter_ids as [| id ids IH]; intros values s Hall; simpl.
  - exists []%list. reflexivity.
  - destruct values as [| v vs]; simpl in *.
    + exists []%list. reflexivity.
    + inversion Hall as [| entry entries Hhead Htail]; subst.
      destruct (IH vs s Htail) as [cs Hcs].
      unfold counter_decodable in Hhead. simpl in Hhead.
      unfold bind, ret, throw.
      destruct (statvaluetype object_type id).
      * destruct (stoull (fvValue v)) as [u |]; [| contradiction].
        rewrite Hcs. eexists. reflexivity.
      * destruct (stod (fvValue v)) as [d |]; [| contradiction].
        rewrite Hcs. eexists. reflexivity.
      * rewrite Hcs. eexists. reflexivity.
Qed.

Lemma decode_counters_finishes object_type counter_ids :
  forall values s,
    fst (decode_counters object_type counter_ids values s) <> Blocks /\
    fst (decode_counters object_type counter_ids values s) <> NullDereference.
Proof.
  induction counter_ids as [| id ids IH]; intros values s; simpl;
    [split; discriminate |].
  destruct values as [| v vs]; [split; discriminate |].
  unfold bind, ret, throw.
  destruct (IH vs s) as [Hb Hn].
  destruct (statvaluetype object_type id);
    try destruct (stoull (fvValue v)); try destruct (stod (fvValue v));
    try (split; discriminate);
    destruct (decode_counters object_type ids vs s) as [[cs | w | |] s2];
    simpl in *; split; try discriminate; contradiction.
Qed.

Lemma getStats_run object_type object_id counter_ids s c status kco rest :
  m_communicationChannel s = Some c ->
  responses s = ((status, kco) :: rest)%list ->
  getStats object_type object_id counter_ids s =
    let s1 :=
      set_responses rest
        (set_trace
           (trace s ++
            [Log LOG_DEBUG "generic get stats key: %s, fields: %zu";
             ChannelSet (make_key object_type (otai_serialize_object_id object_id))
               (serialize_counter_id_list object_type counter_ids)
               REDIS_ASIC_STATE_COMMAND_GET_STATS;
             ChannelWait REDIS_ASIC_STATE_COMMAND_GETRESPONSE]) s) in
    match status with
    | OTAI_STATUS_SUCCESS =>
        if negb (List.length (kfvFieldsValues kco) =? List.length counter_ids)%nat
        then (Throws "wrong number of counters, got %zu, expected %u", s1)
        else
          match decode_counters object_type counter_ids (kfvFieldsValues kco) s1 with
          | (Returns counters, s2) => (Returns (status, counters), s2)
          | (Throws w, s2) => (Throws w, s2)
          | (Blocks, s2) => (Blocks, s2)
          | (NullDereference, s2) => (NullDereference, s2)
          end
    | _ => (Returns (status, []%list), s1)
    end.
Proof.
  intros Hc Hr.
  unfold getStats, waitForGetStatsResponse, channel_wait, channel_set, channel,
    bind, gets, deref, emit, modify, ret, throw.
  cbv zeta. simpl. repeat (rewrite Hc; simpl). rewrite Hr. simpl.
  repeat rewrite <- app_assoc. simpl.
  destruct status; try reflexivity.
  destruct (negb _); [reflexivity |].
  destruct (decode_counters _ _ _ _) as [[cs | w | |] s2]; reflexivity.
Qed.

(** X12. [getStats] answered with [OTAI_STATUS_SUCCESS] and as many
    values as counters asked for.  An outcome other than a return or an
    exception does not occur.  If it returns, the status is
    [OTAI_STATUS_SUCCESS] and there is one counter per id, each the value
    parsed by the decoder of that counter's declared kind (unsigned 64-bit
    or double; a counter of any other kind is left unwritten).  It does
    return whenever every value is accepted by its decoder.  Either way
    the answer is consumed and nothing but the command and the wait is
    added to the object. *)
Theorem getStats_decodes_by_declared_kind :
  forall (object_type : otai_object_type_t) (object_id : otai_object_id_t)
         (counter_ids : list otai_stat_id_t) (s : RedisRemoteOtaiInterface)
         (kco : KeyOpFieldsValuesTuple)
         (rest : list (otai_status_t * KeyOpFieldsValuesTuple)),
    m_communicationChannel s <> None ->
    responses s = ((OTAI_STATUS_SUCCESS, kco) :: rest)%list ->
    List.length (kfvFieldsValues kco) = List.length counter_ids ->
    let r := getStats object_type object_id counter_ids s in
    let entries := combine counter_ids (kfvFieldsValues kco) in
    (forall status counters,
       fst r = Returns (status, counters) ->
       status = OTAI_STATUS_SUCCESS /\
       List.length counters = List.length counter_ids /\
       Forall2 (counter_decoded object_type) entries counters) /\
    (Forall (counter_decodable object_type) entries ->
     exists counters, fst r = Returns (OTAI_STATUS_SUCCESS, counters)) /\
    fst r <> Blocks /\ fst r <> NullDereference /\
    snd r =
      set_responses rest
        (set_trace
           (trace s ++
            [Log LOG_DEBUG "generic get stats key: %s, fields: %zu";
             ChannelSet (make_key object_type (otai_serialize_object_id object_id))
               (serialize_counter_id_list object_type counter_ids)
               REDIS_ASIC_STATE_COMMAND_GET_STATS;
             ChannelWait REDIS_ASIC_STATE_COMMAND_GETRESPONSE]) s).
Proof.
  intros object_type object_id counter_ids s kco rest Hc Hr Hlen r entries.
  destruct (m_communicationChannel s) as [c |] eqn:Hch; [| contradiction].
  unfold r. rewrite (getStats_run _ _ _ _ c _ _ _ Hch Hr). cbv zeta.
  rewrite Hlen, Nat.eqb_refl. simpl negb. cbv iota.
  set (s1 := set_responses rest _).
  pose proof (decode_counters_state object_type counter_ids (kfvFieldsValues kco) s1)
    as Hstate.
  pose proof (decode_counters_sound object_type counter_ids (kfvFieldsValues kco) s1)
    as Hsound.
  pose proof (decode_counters_total object_type counter_ids (kfvFieldsValues kco) s1)
    as Htotal.
  fold entries in Hsound, Htotal.
  destruct (decode_counters object_type counter_ids (kfvFieldsValues kco) s1)
    as [[cs | w | |] s2] eqn:Hd; simpl in Hstate; subst s2; simpl.
  - split; [| split; [| split; [| split]]]; try discriminate; try reflexivity.
    + intros status counters H. injection H as <- <-.
      pose proof (Hsound cs s1 eq_refl) as Hf.
      split; [reflexivity | split; [| exact Hf]].
      apply Forall2_length in Hf. rewrite <- Hf. unfold entries.
      rewrite length_combine, Hlen. apply Nat.min_id.
    + intros _. exists cs. reflexivity.
  - split; [| split; [| split; [| split]]]; try discriminate; try reflexivity.
    intros Hall. destruct (Htotal Hall) as [cs Hcs]. discriminate.
  - destruct (decode_counters_finishes object_type counter_ids
                (kfvFieldsValues kco) s1) as [Hb _].
    rewrite Hd in Hb. exfalso. apply Hb. reflexivity.
  - destruct (decode_counters_finishes object_type counter_ids
                (kfvFieldsValues kco) s1) as [_ Hn].
    rewrite Hd in Hn. exfalso. apply Hn. reflexivity.
Qed.

(** X13. [getStats] answered with any status other than
    [OTAI_STATUS_SUCCESS] returns that status and writes no counter: the
    number of values in the answer is not looked at and nothing is decoded
    or thrown. *)
Theorem getStats_other_status_passes_through :
  forall (object_type : otai_object_type_t) (object_id : otai_object_id_t)
         (counter_ids : list otai_stat_id_t) (s : RedisRemoteOtaiInterface)
         (status : otai_status_t) (kco : KeyOpFieldsValuesTuple)
         (rest : list (otai_status_t * KeyOpFieldsValuesTuple)),
    m_communicationChannel s <> None ->
    responses s = ((status, kco) :: rest)%list ->
    status <> OTAI_STATUS_SUCCESS ->
    getStats object_type object_id counter_ids s =
      (Returns (status, []%list),
       set_responses rest
         (set_trace
            (trace s ++
             [Log LOG_DEBUG "generic get stats key: %s, fields: %zu";
              ChannelSet (make_key object_type (otai_serialize_object_id object_id))
                (serialize_counter_id_list object_type counter_ids)
                REDIS_ASIC_STATE_COMMAND_GET_STATS;
              ChannelWait REDIS_ASIC_STATE_COMMAND_GETRESPONSE]) s)).
Proof.
  intros object_type object_id counter_ids s status kco rest Hc Hr Hs.
  destruct (m_communicationChannel s) as [c |] eqn:Hch; [| contradiction].
  rewrite (getStats_run _ _ _ _ c _ _ _ Hch Hr). cbv zeta.
  destruct status; try reflexivity. contradiction.
Qed.

(** ** The set path, continued *)

(** X14. A [set] of an ordinary attribute on the linecard type while a
    linecard is tracked: answered with [OTAI_STATUS_SUCCESS] it hands the
    attribute to the tracked linecard, which is replaced by its update, and
    returns [OTAI_STATUS_SUCCESS]; answered with any other status it
    returns that status and leaves the tracked linecard as it was. *)
Theorem set_refreshes_tracked_linecard :
  forall (objectId : otai_object_id_t) (a : otai_attribute_t)
         (s : RedisRemoteOtaiInterface) (l : Linecard)
         (status : otai_status_t) (kco : KeyOpFieldsValuesTuple)
         (rest : list (otai_status_t * KeyOpFieldsValuesTuple)),
    attr_id a < OTAI_LINECARD_ATTR_CUSTOM_RANGE_START ->
    m_linecard s = Some l ->
    m_communicationChannel s <> None ->
    responses s = ((status, kco) :: rest)%list ->
    let s1 :=
      set_responses rest
        (set_trace
           (trace s ++
            [Log LOG_DEBUG "generic set key: %s, fields: %zu";
             ChannelSet
               (make_key OTAI_OBJECT_TYPE_LINECARD (otai_serialize_object_id objectId))
               (serialize_attr_list OTAI_OBJECT_TYPE_LINECARD [a] false)
               REDIS_ASIC_STATE_COMMAND_SET;
             ChannelWait REDIS_ASIC_STATE_COMMAND_GETRESPONSE]) s) in
    (status = OTAI_STATUS_SUCCESS ->
     set OTAI_OBJECT_TYPE_LINECARD objectId (Some a) s =
       (Returns OTAI_STATUS_SUCCESS,
        set_linecard (Some (updateNotifications [a] l))
          (set_trace (trace s1 ++ [LinecardUpdateNotifications [a]]) s1))) /\
    (status <> OTAI_STATUS_SUCCESS ->
     set OTAI_OBJECT_TYPE_LINECARD objectId (Some a) s = (Returns status, s1)).
Proof.
  intros objectId a s l status kco rest Hid Hl Hc Hr s1.
  destruct (m_communicationChannel s) as [c |] eqn:Hch; [| contradiction].
  assert (Hx : isRedisAttribute OTAI_OBJECT_TYPE_LINECARD (Some a) = false).
  { rewrite isRedisAttribute_linecard.
    apply Z.ltb_lt in Hid. rewrite Hid. reflexivity. }
  rewrite (set_round_trip _ _ _ _ _ Hx Hch). cbv zeta.
  rewrite Hr, Hl, Z.eqb_refl. cbn [fst andb]. fold s1.
  split.
  - intros ->. reflexivity.
  - intros Hs. destruct status; try reflexivity. contradiction.
Qed.

(** X15. With a channel, a [set] skips the round trip exactly when the
    type is the linecard type and the attribute id is at or above
    [OTAI_LINECARD_ATTR_CUSTOM_RANGE_START]: in that case it puts no command
    on the channel and waits for nothing, in every other case it sends a
    SET command and waits. *)
Theorem set_skips_round_trip_iff :
  forall (objectType : otai_object_type_t) (objectId : otai_object_id_t)
         (a : otai_attribute_t) (s : RedisRemoteOtaiInterface),
    m_communicationChannel s <> None ->
    (round_trip_events
       (events_since s (snd (set objectType objectId (Some a) s))) = []%list <->
     objectType = OTAI_OBJECT_TYPE_LINECARD /\
     OTAI_LINECARD_ATTR_CUSTOM_RANGE_START <= attr_id a) /\
    (round_trip_events
       (events_since s (snd (set objectType objectId (Some a) s))) = []%list \/
     round_trip_events
       (events_since s (snd (set objectType objectId (Some a) s))) =
       [ChannelSet (make_key objectType (otai_serialize_object_id objectId))
          (serialize_attr_list objectType [a] false) REDIS_ASIC_STATE_COMMAND_SET;
        ChannelWait REDIS_ASIC_STATE_COMMAND_GETRESPONSE]%list).
Proof.
  intros objectType objectId a s Hc.
  destruct (m_communicationChannel s) as [c |] eqn:Hch; [| contradiction].
  destruct (isRedisAttribute objectType (Some a)) eqn:Hx.
  - assert (Hcond : objectType = OTAI_OBJECT_TYPE_LINECARD /\
                    OTAI_LINECARD_ATTR_CUSTOM_RANGE_START <= attr_id a).
    { unfold isRedisAttribute in Hx.
      destruct (objectType =? OTAI_OBJECT_TYPE_LINECARD) eqn:Ht; simpl in Hx;
        [| discriminate].
      destruct (attr_id a <? OTAI_LINECARD_ATTR_CUSTOM_RANGE_START) eqn:Hlt;
        [discriminate |].
      split; [apply Z.eqb_eq; exact Ht | apply Z.ltb_ge; exact Hlt]. }
    assert (Hev : round_trip_events
                    (events_since s (snd (set objectType objectId (Some a) s))) =
                  []%list).
    { unfold set. rewrite Hx.
      unfold setRedisExtensionAttribute, channel_flush, channel, bind, gets,
        deref, emit, modify, ret.
      destruct (attr_id a =? OTAI_REDIS_LINECARD_ATTR_FLUSH); simpl;
        rewrite ?Hch; simpl;
        (erewrite events_since_app; [| simpl; reflexivity]); reflexivity. }
    rewrite Hev. split; [split; auto | left; reflexivity].
  - assert (Hev : round_trip_events
                    (events_since s (snd (set objectType objectId (Some a) s))) =
                  [ChannelSet (make_key objectType (otai_serialize_object_id objectId))
                     (serialize_attr_list objectType [a] false)
                     REDIS_ASIC_STATE_COMMAND_SET;
                   ChannelWait REDIS_ASIC_STATE_COMMAND_GETRESPONSE]%list).
    { rewrite (set_round_trip _ _ _ _ _ Hx Hch). cbv zeta.
      destruct (responses s) as [| resp rest]; simpl;
        [erewrite events_since_app; [| simpl; reflexivity]; reflexivity |].
      destruct ((objectType =? OTAI_OBJECT_TYPE_LINECARD)
                && otai_status_eqb (fst resp) OTAI_STATUS_SUCCESS);
        [destruct (m_linecard s) |]; simpl;
        (erewrite events_since_app;
         [| simpl; rewrite <- ?app_assoc; simpl; reflexivity]); reflexivity. }
    rewrite Hev. split; [| right; reflexivity].
    split; [discriminate |].
    intros [Ht Hrange]. exfalso. subst objectType.
    rewrite isRedisAttribute_linecard in Hx.
    apply Z.ltb_ge in Hrange. rewrite Hrange in Hx. discriminate.
Qed.

(** ** Notifications, continued *)

(** X16. A message handled while the metadata pointer is live and its
    name decodes: the metadata is processed exactly once and before
    anything else; then, with a linecard tracked, the callback is the
    pointer of the notification's slot in that linecard's table, called
    after the metadata was processed and not called when that pointer is
    null; with no linecard tracked a warning is logged.  Nothing else of
    the object changes. *)
Theorem notification_delivery :
  forall (name serializedNotification : string) (values : list FieldValueTuple)
         (notification : Notification) (meta : Meta)
         (s : RedisRemoteOtaiInterface),
    NotificationFactory_deserialize name serializedNotification = Some notification ->
    m_meta s = Some meta ->
    handleNotification syncProcessNotification name serializedNotification values s =
      let s1 :=
        set_meta (Some (processMetadata notification meta))
          (set_trace (trace s ++ [MetaProcess notification]) s) in
      (Returns tt,
       match m_linecard s with
       | Some l =>
           match slot_pointer (notificationSlot notification)
                   (getLinecardNotifications l) with
           | Some fn => set_trace (trace s1 ++ [UserCallback fn notification]) s1
           | None => s1
           end
       | None =>
           set_trace
             (trace s1 ++
              [Log LOG_WARN
                 "linecard %s not present in container, returning empty linecard notifications"])
             s1
       end).
Proof.
  intros name body values notification meta s Hd Hm.
  unfold handleNotification. rewrite Hd. unfold bind.
  rewrite syncProcessNotification_run, Hm. cbv zeta.
  destruct (m_linecard s) as [l |].
  - unfold executeCallback.
    destruct (slot_pointer (notificationSlot notification)
                (getLinecardNotifications l)); reflexivity.
  - rewrite executeCallback_no_notifications. reflexivity.
Qed.

(** X17. Handling a message never uses the channel: it puts no command on
    it, waits for nothing and consumes no pending answer, and it leaves the
    initialized flag, the channel, the tracked linecard and the id manager
    as they were.  An answer waiting for a foreground call is still there
    after any notification. *)
Theorem notification_never_uses_channel :
  forall (name serializedNotification : string) (values : list FieldValueTuple)
         (s : RedisRemoteOtaiInterface),
    let s' := snd (handleNotification syncProcessNotification
                     name serializedNotification values s) in
    round_trip_events (events_since s s') = []%list /\
    responses s' = responses s /\
    m_initialized s' = m_initialized s /\
    m_communicationChannel s' = m_communicationChannel s /\
    m_linecard s' = m_linecard s /\
    m_virtualObjectIdManager s' = m_virtualObjectIdManager s.
Proof.
  intros name body values s s'. subst s'.
  split.
  - unfold handleNotification.
    destruct (NotificationFactory_deserialize name body) as [n |].
    + unfold bind. rewrite syncProcessNotification_run.
      destruct (m_meta s) as [meta |]; cbv zeta.
      * destruct (m_linecard s) as [l |].
        -- unfold executeCallback.
           destruct (slot_pointer (notificationSlot n) (getLinecardNotifications l));
             simpl;
             (erewrite events_since_app;
              [| simpl; rewrite <- ?app_assoc; simpl; reflexivity]); reflexivity.
        -- rewrite executeCallback_no_notifications. simpl.
           erewrite events_since_app;
             [| simpl; rewrite <- ?app_assoc; simpl; reflexivity].
           reflexivity.
      * rewrite executeCallback_no_notifications. simpl.
        erewrite events_since_app; [| simpl; reflexivity]. reflexivity.
    + simpl. erewrite events_since_app; [| rewrite app_nil_r; reflexivity].
      reflexivity.
  - assert (Hp : forall B (f : RedisRemoteOtaiInterface -> B),
               (forall t x, f (set_trace t x) = f x) ->
               (forall m x, f (set_meta m x) = f x) ->
               f (snd (handleNotification syncProcessNotification name body values s))
               = f s).
    { intros B f Ht Hm. unfold handleNotification.
      destruct (NotificationFactory_deserialize name body) as [n |];
        [| reflexivity].
      unfold bind. rewrite syncProcessNotification_run.
      destruct (m_meta s) as [meta |]; cbv zeta.
      - destruct (m_linecard s) as [l |].
        + unfold executeCallback.
          destruct (slot_pointer (notificationSlot n) (getLinecardNotifications l));
            simpl; unfold emit, modify; simpl;
            repeat (rewrite Ht || rewrite Hm); reflexivity.
        + rewrite executeCallback_no_notifications. simpl.
          repeat (rewrite Ht || rewrite Hm). reflexivity.
      - rewrite executeCallback_no_notifications. simpl. apply Ht. }
    repeat split; apply Hp; intros; reflexivity.
Qed.

(** ** Calls one after the other *)

Lemma create_linecard_success_run linecardId attr_list s kco rest :
  fst (create_allocation OTAI_OBJECT_TYPE_LINECARD linecardId s) <> OTAI_NULL_OBJECT_ID ->
  m_communicationChannel s <> None ->
  responses s = ((OTAI_STATUS_SUCCESS, kco) :: rest)%list ->
  create OTAI_OBJECT_TYPE_LINECARD linecardId attr_list s =
    let objectId := fst (allocateNewLinecardObjectId (m_virtualObjectIdManager s)) in
    (Returns (OTAI_STATUS_SUCCESS, objectId),
     mk_interface (m_initialized s) (m_communicationChannel s) (m_db s)
       (m_redisVidIndexGenerator s)
       (snd (allocateNewLinecardObjectId (m_virtualObjectIdManager s)))
       (Some (make_Linecard objectId attr_list)) (m_meta s) rest
       (trace s ++
        [Log LOG_NOTICE "generic create key: %s, fields: %zu";
         ChannelSet
           (make_key OTAI_OBJECT_TYPE_LINECARD (otai_serialize_object_id objectId))
           match serialize_attr_list OTAI_OBJECT_TYPE_LINECARD attr_list false with
           | [] => [("NULL", "NULL")]
           | f :: fs => f :: fs
           end
           REDIS_ASIC_STATE_COMMAND_CREATE;
         ChannelWait REDIS_ASIC_STATE_COMMAND_GETRESPONSE;
         Log LOG_NOTICE "generic create key end: %s, fields: %zu"])%list).
Proof.
  intros Hn Hc Hr. apply Z.eqb_neq in Hn. revert Hn.
  unfold create, create_allocation, create_serialized, waitForResponse,
    channel_wait, channel_set, channel, bind, gets, deref, emit, modify, ret.
  cbv zeta. rewrite Z.eqb_refl.
  destruct (m_communicationChannel s) as [c |] eqn:Hch; [| contradiction].
  destruct (allocateNewLinecardObjectId _) as [oid m'] eqn:Ha; simpl.
  intros Hn; rewrite Hn; simpl; repeat (rewrite Hch; simpl).
  rewrite Hr. simpl.
  unfold set_linecard, set_trace, set_responses, set_virtualObjectIdManager. simpl.
  rewrite Hch.
  destruct (serialize_attr_list _ _ _); simpl;
    repeat rewrite <- app_assoc; reflexivity.
Qed.

Lemma untracked_no_callback name serializedNotification values s :
  m_linecard s = None ->
  Forall (fun e => is_user_callback e = false)
    (events_since s
       (snd (handleNotification syncProcessNotification
               name serializedNotification values s))).
Proof.
  intros Hl. unfold handleNotification.
  destruct (NotificationFactory_deserialize name serializedNotification) as [n |].
  - unfold bind. rewrite syncProcessNotification_run.
    destruct (m_meta s); cbv zeta; rewrite ?Hl;
      rewrite executeCallback_no_notifications; simpl.
    + erewrite events_since_app; [| simpl; rewrite <- app_assoc; reflexivity].
      repeat constructor.
    + erewrite events_since_app; [| simpl; reflexivity].
      repeat constructor.
  - simpl. erewrite events_since_app; [| rewrite app_nil_r; reflexivity].
    constructor.
Qed.

(** X18. After a [create] of the linecard type answered with
    [OTAI_STATUS_SUCCESS], the table handed to the next notification is the
    one of the linecard built from the allocated id and the attributes of
    that call, whatever was tracked before; the metadata pointer is the one
    from before the call. *)
Theorem created_linecard_serves_notifications :
  forall (linecardId : otai_object_id_t) (attr_list : list otai_attribute_t)
         (notification : Notification) (meta : Meta)
         (s : RedisRemoteOtaiInterface) (kco : KeyOpFieldsValuesTuple)
         (rest : list (otai_status_t * KeyOpFieldsValuesTuple)),
    fst (create_allocation OTAI_OBJECT_TYPE_LINECARD linecardId s) <>
      OTAI_NULL_OBJECT_ID ->
    m_communicationChannel s <> None ->
    responses s = ((OTAI_STATUS_SUCCESS, kco) :: rest)%list ->
    m_meta s = Some meta ->
    fst (syncProcessNotification notification
           (snd (create OTAI_OBJECT_TYPE_LINECARD linecardId attr_list s))) =
      Returns
        (getLinecardNotifications
           (make_Linecard
              (fst (create_allocation OTAI_OBJECT_TYPE_LINECARD linecardId s))
              attr_list)).
Proof.
  intros linecardId attr_list notification meta s kco rest Hn Hc Hr Hm.
  rewrite (create_linecard_success_run _ _ _ _ _ Hn Hc Hr). cbv zeta.
  rewrite syncProcessNotification_run. simpl. rewrite Hm. simpl.
  unfold create_allocation. rewrite Z.eqb_refl. reflexivity.
Qed.

(** X19. A linecard created and then removed by the id [create] returned,
    both answered with [OTAI_STATUS_SUCCESS]: both calls return
    [OTAI_STATUS_SUCCESS], the REMOVE command addresses the very key the
    CREATE command wrote, each command is followed by its own wait, the two
    answers are consumed in order, and no linecard is tracked at the
    end. *)
Theorem create_then_remove_linecard :
  forall (linecardId : otai_object_id_t) (attr_list : list otai_attribute_t)
         (s : RedisRemoteOtaiInterface) (kco1 kco2 : KeyOpFieldsValuesTuple)
         (rest : list (otai_status_t * KeyOpFieldsValuesTuple)),
    fst (create_allocation OTAI_OBJECT_TYPE_LINECARD linecardId s) <>
      OTAI_NULL_OBJECT_ID ->
    m_communicationChannel s <> None ->
    responses s =
      ((OTAI_STATUS_SUCCESS, kco1) :: (OTAI_STATUS_SUCCESS, kco2) :: rest)%list ->
    let objectId := fst (create_allocation OTAI_OBJECT_TYPE_LINECARD linecardId s) in
    let created := create OTAI_OBJECT_TYPE_LINECARD linecardId attr_list s in
    let removed := remove OTAI_OBJECT_TYPE_LINECARD objectId (snd created) in
    let key := make_key OTAI_OBJECT_TYPE_LINECARD (otai_serialize_object_id objectId) in
    fst created = Returns (OTAI_STATUS_SUCCESS, objectId) /\
    fst removed = Returns OTAI_STATUS_SUCCESS /\
    m_linecard (snd removed) = None /\
    responses (snd removed) = rest /\
    round_trip_events (events_since s (snd removed)) =
      [ChannelSet key
         match serialize_attr_list OTAI_OBJECT_TYPE_LINECARD attr_list false with
         | [] => [("NULL", "NULL")]
         | f :: fs => f :: fs
         end
         REDIS_ASIC_STATE_COMMAND_CREATE;
       ChannelWait REDIS_ASIC_STATE_COMMAND_GETRESPONSE;
       ChannelDel key REDIS_ASIC_STATE_COMMAND_REMOVE;
       ChannelWait REDIS_ASIC_STATE_COMMAND_GETRESPONSE]%list.
Proof.
  intros linecardId attr_list s kco1 kco2 rest Hn Hc Hr objectId created removed key.
  assert (Hoid : objectId =
                 fst (allocateNewLinecardObjectId (m_virtualObjectIdManager s))).
  { unfold objectId, create_allocation. rewrite Z.eqb_refl. reflexivity. }
  subst removed created.
  rewrite (create_linecard_success_run _ attr_list _ _ _ Hn Hc Hr). cbv zeta.
  rewrite <- Hoid. fold key. simpl snd.
  destruct (m_communicationChannel s) as [c |] eqn:Hch; [| contradiction].
  unfold remove, remove_serialized, waitForResponse, channel_wait, channel_del,
    channel, bind, gets, deref, emit, modify, ret.
  simpl. rewrite Z.eqb_refl. simpl. fold key.
  split; [reflexivity | split; [reflexivity | split; [reflexivity | split;
    [reflexivity |]]]].
  erewrite events_since_app;
    [| simpl; repeat rewrite <- app_assoc; simpl; reflexivity].
  reflexivity.
Qed.

(** X20. After a successful [uninitialize], and after the destructor, no
    message reaches a user callback, whatever linecard was tracked before
    and whether or not the metadata pointer is still live. *)
Theorem teardown_stops_callbacks :
  forall (name serializedNotification : string) (values : list FieldValueTuple)
         (s : RedisRemoteOtaiInterface),
    m_initialized s = true ->
    Forall (fun e => is_user_callback e = false)
      (events_since (snd (uninitialize s))
         (snd (handleNotification syncProcessNotification
                 name serializedNotification values (snd (uninitialize s))))) /\
    Forall (fun e => is_user_callback e = false)
      (events_since (snd (delete_RedisRemoteOtaiInterface s))
         (snd (handleNotification syncProcessNotification
                 name serializedNotification values
                 (snd (delete_RedisRemoteOtaiInterface s))))).
Proof.
  intros name body values s Hini.
  assert (Hu : m_linecard (snd (uninitialize s)) = None).
  { unfold uninitialize, clear_local_state, bind, gets, emit, modify, ret.
    simpl. rewrite Hini. reflexivity. }
  assert (Hd : m_linecard (snd (delete_RedisRemoteOtaiInterface s)) = None).
  { unfold delete_RedisRemoteOtaiInterface, uninitialize, clear_local_state,
      bind, gets, emit, modify, ret.
    rewrite Hini. simpl. rewrite Hini. reflexivity. }
  split; apply untracked_no_callback; assumption.
Qed.

(** ** At most one answer per call *)

Lemma create_pops objectType linecardId attr_list s :
  responses (snd (create objectType linecardId attr_list s)) = responses s \/
  responses (snd (create objectType linecardId attr_list s)) = tl (responses s).
Proof.
  unfold create, create_allocation, create_serialized, waitForResponse,
    channel_wait, channel_set, channel, bind, gets, deref, emit, modify, ret.
  cbv zeta.
  destruct (objectType =? OTAI_OBJECT_TYPE_LINECARD) eqn:Ht; simpl;
    [destruct (allocateNewLinecardObjectId _) as [oid m'] eqn:Ha
    |destruct (allocateNewObjectId _ _ _) as [oid m'] eqn:Ha]; simpl;
    (destruct (oid =? OTAI_NULL_OBJECT_ID) eqn:Hn; simpl; [left; reflexivity |]);
    (destruct (m_communicationChannel s) eqn:Hc; simpl;
     repeat (rewrite Hc; simpl); [| left; reflexivity]);
    (destruct (responses s) as [| resp rest] eqn:Hr; simpl;
     repeat (rewrite Hr; simpl); [left; reflexivity |]);
    try (destruct (otai_status_eqb (fst resp) OTAI_STATUS_SUCCESS); simpl);
    right; reflexivity.
Qed.

Lemma remove_pops objectType objectId s :
  responses (snd (remove objectType objectId s)) = responses s \/
  responses (snd (remove objectType objectId s)) = tl (responses s).
Proof.
  unfold remove, remove_serialized, waitForResponse, channel_wait, channel_del,
    channel, bind, gets, deref, emit, modify, ret.
  simpl.
  destruct (m_communicationChannel s) eqn:Hc; simpl;
    repeat (rewrite Hc; simpl); [| left; reflexivity].
  destruct (responses s) as [| resp rest] eqn:Hr; simpl;
    repeat (rewrite Hr; simpl); [left; reflexivity |].
  destruct ((objectType =? OTAI_OBJECT_TYPE_LINECARD)
            && otai_status_eqb (fst resp) OTAI_STATUS_SUCCESS); simpl;
    right; reflexivity.
Qed.

Lemma set_pops objectType objectId attr s :
  responses (snd (set objectType objectId attr s)) = responses s \/
  responses (snd (set objectType objectId attr s)) = tl (responses s).
Proof.
  unfold set. destruct (isRedisAttribute objectType attr) eqn:Hx.
  - left. unfold setRedisExtensionAttribute, channel_flush, channel, bind, gets,
      deref, emit, modify, ret.
    destruct attr as [a |]; [| reflexivity].
    destruct (attr_id a =? OTAI_REDIS_LINECARD_ATTR_FLUSH); [| reflexivity].
    simpl. destruct (m_communicationChannel s); reflexivity.
  - destruct attr as [a |]; [| left; reflexivity].
    destruct (m_communicationChannel s) as [c |] eqn:Hc.
    + pose proof (set_round_trip objectType objectId a s c Hx Hc) as Hrun.
      unfold set in Hrun. rewrite Hx in Hrun. rewrite Hrun. cbv zeta.
      destruct (responses s) as [| resp rest] eqn:Hr; [left; simpl; exact Hr |].
      right.
      destruct ((objectType =? OTAI_OBJECT_TYPE_LINECARD)
                && otai_status_eqb (fst resp) OTAI_STATUS_SUCCESS);
        [destruct (m_linecard s) |]; reflexivity.
    + left.
      unfold set_serialized, channel_set, channel, bind, gets, deref, emit,
        modify, ret.
      simpl. rewrite Hc. reflexivity.
Qed.

Lemma get_pops objectType objectId attr_list s :
  responses (snd (get objectType objectId attr_list s)) = responses s \/
  responses (snd (get objectType objectId attr_list s)) = tl (responses s).
Proof.
  unfold get, get_serialized, waitForGetResponse, channel_wait, channel_set,
    channel, bind, gets, deref, emit, modify, ret, throw.
  cbv zeta.
  destruct (m_communicationChannel s) eqn:Hc; simpl;
    repeat (rewrite Hc; simpl); [| left; reflexivity].
  destruct (responses s) as [| [status kco] rest] eqn:Hr; simpl;
    repeat (rewrite Hr; simpl); [left; reflexivity |].
  right. destruct status; simpl;
    try destruct (List.length (kfvFieldsValues kco) =? 0)%nat; reflexivity.
Qed.

Lemma getStats_pops object_type object_id counter_ids s :
  responses (snd (getStats object_type object_id counter_ids s)) = responses s \/
  responses (snd (getStats object_type object_id counter_ids s)) = tl (responses s).
Proof.
  destruct (m_communicationChannel s) as [c |] eqn:Hc.
  - destruct (responses s) as [| [status kco] rest] eqn:Hr.
    + left.
      unfold getStats, waitForGetStatsResponse, channel_wait, channel_set,
        channel, bind, gets, deref, emit, modify, ret.
      simpl. repeat (rewrite Hc; simpl). rewrite Hr. simpl. exact Hr.
    + right. rewrite (getStats_run _ _ _ _ c _ _ _ Hc Hr). cbv zeta.
      destruct status; try reflexivity.
      destruct (negb _); [reflexivity |].
      match goal with
      | |- context [decode_counters ?t ?ids ?vs ?x] =>
          pose proof (decode_counters_state t ids vs x) as Hstate;
          destruct (decode_counters t ids vs x) as [[cs | w | |] s2]
      end; simpl in Hstate; subst s2; reflexivity.
  - left.
    unfold getStats, waitForGetStatsResponse, channel_wait, channel_set,
      channel, bind, gets, deref, emit, modify, ret.
    simpl. rewrite Hc. reflexivity.
Qed.

Lemma clearStats_pops object_type object_id counter_ids s :
  responses (snd (clearStats object_type object_id counter_ids s)) = responses s \/
  responses (snd (clearStats object_type object_id counter_ids s)) = tl (responses s).
Proof.
  unfold clearStats, waitForClearStatsResponse, channel_wait, channel_set,
    channel, bind, gets, deref, emit, modify, ret.
  cbv zeta.
  destruct (m_communicationChannel s) eqn:Hc; simpl;
    repeat (rewrite Hc; simpl); [| left; reflexivity].
  destruct (responses s) as [| resp rest] eqn:Hr; simpl;
    repeat (rewrite Hr; simpl); [left; reflexivity | right; reflexivity].
Qed.

Lemma lifecycle_keeps_responses flags service_method_table s :
  responses (snd (initialize flags service_method_table s)) = responses s /\
  responses (snd (uninitialize s)) = responses s /\
  responses (snd (delete_RedisRemoteOtaiInterface s)) = responses s.
Proof.
  unfold delete_RedisRemoteOtaiInterface, initialize, uninitialize,
    clear_local_state, channel, bind, gets, deref, emit, modify, ret.
  destruct (m_initialized s) eqn:Hini; simpl; rewrite ?Hini; simpl;
    repeat split; reflexivity.
Qed.

(** X21. No call consumes more than one pending answer: after any member
    function, however it ends, the pending answers are those from before
    or those from before without the first.  A single call therefore never
    reads an answer that belongs to a later command. *)
Theorem call_consumes_at_most_one_answer :
  forall (call : api_call) (s : RedisRemoteOtaiInterface),
    responses (snd (run_call call s)) = responses s \/
    responses (snd (run_call call s)) = tl (responses s).
Proof.
  intros call s. destruct call; simpl.
  - left. apply lifecycle_keeps_responses.
  - left. apply (lifecycle_keeps_responses 0 None).
  - left. reflexivity.
  - apply create_pops.
  - apply remove_pops.
  - apply set_pops.
  - apply get_pops.
  - apply getStats_pops.
  - left. reflexivity.
  - apply clearStats_pops.
  - left. reflexivity.
  - left. reflexivity.
  - left. reflexivity.
  - left. reflexivity.
  - left.
    revert s.
    change (preserves responses
              (handleNotification syncProcessNotification name
                 serializedNotification values)).
    unfold handleNotification, syncProcessNotification, executeCallback. frame.
  - left. apply (lifecycle_keeps_responses 0 None).
Qed.

(** X22. The two protocol errors leave the exchange where it stands: when
    [get] throws on an empty payload, or [getStats] on a wrong number of
    values, the command has been sent, the wait performed and the offending
    answer consumed; the next call will read the answer after it. *)
Theorem protocol_error_consumes_the_answer :
  forall (objectType : otai_object_type_t) (objectId : otai_object_id_t)
         (attr_list : list otai_attribute_t) (counter_ids : list otai_stat_id_t)
         (s : RedisRemoteOtaiInterface) (status : otai_status_t)
         (kco : KeyOpFieldsValuesTuple)
         (rest : list (otai_status_t * KeyOpFieldsValuesTuple)),
    m_communicationChannel s <> None ->
    responses s = ((status, kco) :: rest)%list ->
    (status = OTAI_STATUS_SUCCESS \/ status = OTAI_STATUS_BUFFER_OVERFLOW ->
     kfvFieldsValues kco = []%list ->
     responses (snd (get objectType objectId attr_list s)) = rest /\
     round_trip_events
       (events_since s (snd (get objectType objectId attr_list s))) =
       [ChannelSet (make_key objectType (otai_serialize_object_id objectId))
          (serialize_attr_list objectType (clearOidValues objectType attr_list) false)
          REDIS_ASIC_STATE_COMMAND_GET;
        ChannelWait REDIS_ASIC_STATE_COMMAND_GETRESPONSE]%list) /\
    (status = OTAI_STATUS_SUCCESS ->
     List.length (kfvFieldsValues kco) <> List.length counter_ids ->
     responses (snd (getStats objectType objectId counter_ids s)) = rest /\
     round_trip_events
       (events_since s (snd (getStats objectType objectId counter_ids s))) =
       [ChannelSet (make_key objectType (otai_serialize_object_id objectId))
          (serialize_counter_id_list objectType counter_ids)
          REDIS_ASIC_STATE_COMMAND_GET_STATS;
        ChannelWait REDIS_ASIC_STATE_COMMAND_GETRESPONSE]%list).
Proof.
  intros objectType objectId attr_list counter_ids s status kco rest Hc Hr.
  destruct (m_communicationChannel s) as [c |] eqn:Hch; [| contradiction].
  split.
  - intros Hs Hv. split.
    + unfold get, get_serialized, waitForGetResponse, channel_wait, channel_set,
        channel, bind, gets, deref, emit, modify, ret, throw.
      cbv zeta. simpl. repeat (rewrite Hch; simpl). rewrite Hr. simpl.
      rewrite Hv. destruct Hs as [-> | ->]; reflexivity.
    + rewrite get_events, Hch. reflexivity.
  - intros -> Hlen.
    rewrite (getStats_run _ _ _ _ c _ _ _ Hch Hr). cbv zeta.
    apply Nat.eqb_neq in Hlen. rewrite Hlen. simpl. split; [reflexivity |].
    erewrite events_since_app; [| simpl; reflexivity]. reflexivity.
Qed.

End Properties.

(** * The properties on the sample collaborators *)

Section Runs.

#[local] Existing Instance Sample.collaborators.

Import Sample.

Local Open Scope string_scope.
Local Open Scope Z_scope.

Lemma initialize_uninitialize_lifecycle_witness :
  (fst (initialize 0 None (interface 16 (Some no_notifications) None [])) =
     Returns OTAI_STATUS_FAILURE /\
   m_initialized (snd (initialize 0 None (interface 16 (Some no_notifications) None []))) =
     true) /\
  (fst (initialize 0 None uninitialized_interface) = Returns OTAI_STATUS_SUCCESS /\
   m_initialized (snd (initialize 0 None uninitialized_interface)) = true /\
   m_linecard (snd (initialize 0 None uninitialized_interface)) = None) /\
  (fst (uninitialize uninitialized_interface) = Returns OTAI_STATUS_FAILURE /\
   m_initialized (snd (uninitialize uninitialized_interface)) = false) /\
  (fst (uninitialize (interface 16 (Some no_notifications) None [])) =
     Returns OTAI_STATUS_SUCCESS /\
   m_initialized (snd (uninitialize (interface 16 (Some no_notifications) None []))) =
     false).
Proof.
  split; [| split; [| split]].
  - apply (initialize_uninitialize_lifecycle 0 None
             (interface 16 (Some no_notifications) None [])).
    reflexivity.
  - apply (initialize_uninitialize_lifecycle 0 None uninitialized_interface).
    reflexivity.
  - apply (initialize_uninitialize_lifecycle 0 None uninitialized_interface).
    reflexivity.
  - apply (initialize_uninitialize_lifecycle 0 None
             (interface 16 (Some no_notifications) None [])).
    reflexivity.
Defined.

(** C1 with [OTAI_STATUS_INSUFFICIENT_RESOURCES] for every object type
    fails on the linecard type: with the id budget spent the linecard
    allocation returns the null id, and [create] returns
    [OTAI_STATUS_FAILURE]. *)
Lemma create_linecard_allocation_failure_counterexample :
  fst (create_allocation linecard_type 0 (interface 0 None None [])) =
    OTAI_NULL_OBJECT_ID /\
  fst (create linecard_type 0 [] (interface 0 None None [])) =
    Returns (OTAI_STATUS_FAILURE, OTAI_NULL_OBJECT_ID) /\
  fst (create linecard_type 0 [] (interface 0 None None [])) <>
    Returns (OTAI_STATUS_INSUFFICIENT_RESOURCES, OTAI_NULL_OBJECT_ID).
Proof.
  split; [reflexivity | split; [reflexivity | discriminate]].
Qed.

Lemma create_allocation_failure_witness :
  fst (create_allocation port_type 5 (interface 0 None None [])) =
    OTAI_NULL_OBJECT_ID /\
  create port_type 5 [mk_attribute 3 (AttrValue_other 1)] (interface 0 None None []) =
    (Returns (OTAI_STATUS_INSUFFICIENT_RESOURCES, OTAI_NULL_OBJECT_ID),
     set_trace [Log LOG_ERROR "failed to create %s, with linecard id: %s"]
       (interface 0 None None [])).
Proof.
  split; [reflexivity |].
  apply (create_allocation_failure port_type 5
           [mk_attribute 3 (AttrValue_other 1)] (interface 0 None None [])).
  reflexivity.
Defined.

Lemma get_empty_payload_throws_witness :
  exists what : string,
    fst (get port_type 5 [mk_attribute 4 (AttrValue_objlist [5; 6])]
           (interface 2 None None [answer OTAI_STATUS_BUFFER_OVERFLOW []])) =
    Throws what.
Proof.
  apply (get_empty_payload_throws port_type 5
           [mk_attribute 4 (AttrValue_objlist [5; 6])]
           (interface 2 None None [answer OTAI_STATUS_BUFFER_OVERFLOW []])
           false OTAI_STATUS_BUFFER_OVERFLOW (mk_kco "" "getresponse" []) []).
  - reflexivity.
  - reflexivity.
  - right. reflexivity.
  - reflexivity.
Defined.

Lemma set_extension_attribute_witness :
  set linecard_type 5 (Some (mk_attribute flush_attr (AttrValue_other 1)))
      (interface 2 None None []) =
    (Returns OTAI_STATUS_SUCCESS, set_trace [ChannelFlush] (interface 2 None None [])) /\
  set linecard_type 5 (Some (mk_attribute (flush_attr + 1) (AttrValue_other 1)))
      (interface 2 (Some no_notifications) None []) =
    (Returns OTAI_STATUS_FAILURE,
     set_trace [Log LOG_ERROR "unknown redis extension attribute: %d"]
       (interface 2 (Some no_notifications) None [])) /\
  isRedisAttribute port_type (Some (mk_attribute flush_attr (AttrValue_other 1))) = false.
Proof.
  split; [| split].
  - apply (set_extension_attribute port_type 5
             (mk_attribute flush_attr (AttrValue_other 1))
             (interface 2 None None [])).
    + vm_compute. discriminate.
    + reflexivity.
    + discriminate.
  - apply (set_extension_attribute port_type 5
             (mk_attribute (flush_attr + 1) (AttrValue_other 1))
             (interface 2 (Some no_notifications) None [])).
    + vm_compute. discriminate.
    + vm_compute. discriminate.
  - apply (set_extension_attribute port_type 5
             (mk_attribute flush_attr (AttrValue_other 1))
             (interface 2 None None [])).
    vm_compute. discriminate.
Defined.

Lemma set_linecard_untracked_witness :
  fst (set linecard_type 5 (Some (mk_attribute 4 (AttrValue_other 1)))
         (interface 2 None None [answer OTAI_STATUS_SUCCESS []])) =
    Returns OTAI_STATUS_SUCCESS /\
  m_linecard
    (snd (set linecard_type 5 (Some (mk_attribute 4 (AttrValue_other 1)))
            (interface 2 None None [answer OTAI_STATUS_SUCCESS []]))) = None.
Proof.
  destruct (set_linecard_untracked 5 (mk_attribute 4 (AttrValue_other 1))
              (interface 2 None None [answer OTAI_STATUS_SUCCESS []])
              false (mk_kco "" "getresponse" []) []) as [Hrun Hl].
  - vm_compute. reflexivity.
  - reflexivity.
  - reflexivity.
  - reflexivity.
  - split; [exact (f_equal fst Hrun) | exact Hl].
Defined.

Lemma create_never_without_fields_witness :
  created_fields
    (events_since (interface 3 None None [answer OTAI_STATUS_SUCCESS []])
       (snd (create linecard_type 0 []
               (interface 3 None None [answer OTAI_STATUS_SUCCESS []])))) =
    [[("NULL", "NULL")]].
Proof.
  apply (create_never_without_fields linecard_type 0 []
           (interface 3 None None [answer OTAI_STATUS_SUCCESS []])).
  - reflexivity.
  - vm_compute. discriminate.
  - discriminate.
Defined.

Lemma get_sends_cleared_oid_lists_witness :
  oid_list_is_null [0; 0] /\
  get_fields
    (events_since (interface 2 None None [answer OTAI_STATUS_FAILURE []])
       (snd (get port_type 5 [mk_attribute 4 (AttrValue_objlist [5; 6])]
               (interface 2 None None [answer OTAI_STATUS_FAILURE []])))) =
    [[("ATTR", "null-list")]].
Proof.
  destruct (get_sends_cleared_oid_lists port_type 5
              [mk_attribute 4 (AttrValue_objlist [5; 6])]
              (interface 2 None None [answer OTAI_STATUS_FAILURE []]))
    as [Hnull [_ [_ Hsent]]].
  split.
  - apply (Hnull (mk_attribute 4 (AttrValue_objlist [0; 0])) [0; 0]).
    + left. reflexivity.
    + reflexivity.
  - apply Hsent. discriminate.
Defined.

Lemma getStats_count_mismatch_throws_witness :
  fst (getStats port_type 5 [1; 2]
         (interface 2 None None [answer OTAI_STATUS_SUCCESS [("COUNTER", "1")]])) =
    Throws "wrong number of counters, got %zu, expected %u".
Proof.
  apply (getStats_count_mismatch_throws port_type 5 [1; 2]
           (interface 2 None None [answer OTAI_STATUS_SUCCESS [("COUNTER", "1")]])
           false (mk_kco "" "getresponse" [("COUNTER", "1")]) []).
  - reflexivity.
  - reflexivity.
  - simpl. lia.
Defined.

Lemma remove_linecard_drops_notifications_witness :
  m_linecard
    (snd (remove linecard_type 0x1000000000001
            (interface 2
               (Some (notifications_of [mk_attribute 77 (AttrValue_other 0)] no_notifications))
               (Some 0%nat) [answer OTAI_STATUS_SUCCESS []]))) = None /\
  fst (syncProcessNotification (E := collaborators) (SlotAlarm, 0x1000000000001)
         (interface 2 None (Some 0%nat) [])) = Returns no_notifications /\
  Forall (fun e => is_user_callback e = false)
    (events_since (interface 2 None (Some 0%nat) [])
       (snd (handleNotification syncProcessNotification "linecard_alarm" "" []
               (interface 2 None (Some 0%nat) [])))).
Proof.
  split; [| split].
  - apply (remove_linecard_drops_notifications (E := collaborators) 0x1000000000001
             (SlotAlarm, 0x1000000000001) "linecard_alarm" "" []
             (interface 2
                (Some (notifications_of [mk_attribute 77 (AttrValue_other 0)] no_notifications))
                (Some 0%nat) [answer OTAI_STATUS_SUCCESS []])).
    reflexivity.
  - apply (remove_linecard_drops_notifications (E := collaborators) 0x1000000000001
             (SlotAlarm, 0x1000000000001) "linecard_alarm" "" []
             (interface 2 None (Some 0%nat) [])).
    reflexivity.
  - apply (remove_linecard_drops_notifications (E := collaborators) 0x1000000000001
             (SlotAlarm, 0x1000000000001) "linecard_alarm" "" []
             (interface 2 None (Some 0%nat) [])).
    reflexivity.
Defined.

Lemma expired_meta_drops_notification_witness :
  handleNotification syncProcessNotification "linecard_alarm" "" []
    (interface 2
       (Some (notifications_of [mk_attribute 77 (AttrValue_other 0)] no_notifications))
       None []) =
    (Returns tt,
     set_trace [Log LOG_WARN "meta pointer expired"]
       (interface 2
          (Some (notifications_of [mk_attribute 77 (AttrValue_other 0)] no_notifications))
          None [])).
Proof.
  apply (expired_meta_drops_notification (E := collaborators) (SlotAlarm, 0x1000000000001)
           "linecard_alarm" "" []
           (interface 2
              (Some (notifications_of [mk_attribute 77 (AttrValue_other 0)] no_notifications))
              None [])).
  reflexivity.
Defined.

Lemma destructor_uninitializes_witness :
  m_communicationChannel
    (snd (delete_RedisRemoteOtaiInterface (interface 16 (Some callbacks) None []))) = None /\
  m_linecard
    (snd (delete_RedisRemoteOtaiInterface (interface 16 (Some callbacks) None []))) = None /\
  snd (delete_RedisRemoteOtaiInterface uninitialized_interface) = uninitialized_interface.
Proof.
  destruct (destructor_uninitializes (interface 16 (Some callbacks) None []))
    as [_ [_ [Hrun _]]].
  destruct (destructor_uninitializes uninitialized_interface) as [_ [_ [_ Hidle]]].
  destruct (Hrun eq_refl) as [Hc Hl].
  split; [exact Hc | split; [exact Hl | exact (Hidle eq_refl)]].
Defined.

Lemma rejected_lifecycle_call_only_logs_witness :
  initialize 0 None (interface 16 (Some callbacks) None []) =
    (Returns OTAI_STATUS_FAILURE,
     set_trace [Log LOG_ERROR "already initialized"]
       (interface 16 (Some callbacks) None [])) /\
  uninitialize uninitialized_interface =
    (Returns OTAI_STATUS_FAILURE,
     set_trace [Log LOG_NOTICE "begin"; Log LOG_ERROR "not initialized"]
       uninitialized_interface).
Proof.
  destruct (rejected_lifecycle_call_only_logs 0 None
              (interface 16 (Some callbacks) None [])) as [Hi _].
  destruct (rejected_lifecycle_call_only_logs 0 None uninitialized_interface)
    as [_ Hu].
  split; [exact (Hi eq_refl) | exact (Hu eq_refl)].
Defined.

Lemma uninitialize_resets_local_state_witness :
  uninitialize (interface 3 (Some callbacks) (Some 5%nat) [answer OTAI_STATUS_SUCCESS []]) =
    (Returns OTAI_STATUS_SUCCESS,
     mk_interface false None (mk_db "ASIC_DB" 0) 16 16 None (Some 5%nat)
       [answer OTAI_STATUS_SUCCESS []]
       [Log LOG_NOTICE "begin"; Log LOG_NOTICE "clearing local state";
        Log LOG_NOTICE "end"]).
Proof.
  apply (uninitialize_resets_local_state
           (interface 3 (Some callbacks) (Some 5%nat) [answer OTAI_STATUS_SUCCESS []])).
  reflexivity.
Defined.

Lemma calls_keep_tracking_invariant_witness :
  m_linecard
    (run_calls
       [CallCreate linecard_type 0 []; CallUninitialize;
        CallHandleNotification "linecard_alarm" "" []]
       (snd (new_RedisRemoteOtaiInterface
               (interface 3 None (Some 0%nat) [answer OTAI_STATUS_SUCCESS []])))) = None.
Proof.
  apply (calls_keep_tracking_invariant
           [CallCreate linecard_type 0 []; CallUninitialize;
            CallHandleNotification "linecard_alarm" "" []]
           (interface 3 None (Some 0%nat) [answer OTAI_STATUS_SUCCESS []])).
  reflexivity.
Defined.

Lemma create_round_trip_witness :
  fst (create port_type 5 [plain_attr]
         (interface 2 (Some callbacks) None [answer OTAI_STATUS_FAILURE []])) =
    Returns (OTAI_STATUS_FAILURE, 0x2000000000002) /\
  m_linecard
    (snd (create port_type 5 [plain_attr]
            (interface 2 (Some callbacks) None [answer OTAI_STATUS_FAILURE []]))) =
    Some callbacks.
Proof.
  rewrite (create_round_trip port_type 5 [plain_attr]
             (interface 2 (Some callbacks) None [answer OTAI_STATUS_FAILURE []])).
  - split; reflexivity.
  - vm_compute. discriminate.
  - discriminate.
Defined.

Lemma remove_round_trip_witness :
  remove port_type 7 (interface 2 (Some callbacks) None [answer OTAI_STATUS_SUCCESS []]) =
    (Returns OTAI_STATUS_SUCCESS,
     set_trace
       [Log LOG_NOTICE "generic remove key: %s";
        ChannelDel "OTAI_OBJECT_TYPE_PORT:oid:0x1" REDIS_ASIC_STATE_COMMAND_REMOVE;
        ChannelWait REDIS_ASIC_STATE_COMMAND_GETRESPONSE]
       (interface 2 (Some callbacks) None [])).
Proof.
  rewrite (remove_round_trip port_type 7
             (interface 2 (Some callbacks) None [answer OTAI_STATUS_SUCCESS []])).
  - reflexivity.
  - discriminate.
Defined.

Lemma clearStats_round_trip_witness :
  clearStats port_type 7 [1; 2] (interface 2 None None []) =
    (Blocks,
     set_trace
       [Log LOG_DEBUG "generic clear stats key: %s, fields: %zu";
        ChannelSet "OTAI_OBJECT_TYPE_PORT:oid:0x1" [("COUNTER", ""); ("COUNTER", "")]
          REDIS_ASIC_STATE_COMMAND_CLEAR_STATS;
        ChannelWait REDIS_ASIC_STATE_COMMAND_GETRESPONSE]
       (interface 2 None None [])).
Proof.
  rewrite (clearStats_round_trip port_type 7 [1; 2] (interface 2 None None [])).
  - reflexivity.
  - discriminate.
Defined.

Lemma get_response_handling_witness :
  fst (get port_type 5 [mk_attribute 4 (AttrValue_objlist [5; 6])]
         (interface 2 None None [answer OTAI_STATUS_FAILURE []])) =
    Returns (OTAI_STATUS_FAILURE, [mk_attribute 4 (AttrValue_objlist [0; 0])]).
Proof.
  destruct (get_response_handling port_type 5
              [mk_attribute 4 (AttrValue_objlist [5; 6])]
              (interface 2 None None [answer OTAI_STATUS_FAILURE []])
              OTAI_STATUS_FAILURE (mk_kco "" "getresponse" []) [])
    as [_ [_ Hother]].
  - discriminate.
  - reflexivity.
  - rewrite Hother; [reflexivity | discriminate | discriminate].
Defined.

Lemma getStats_decodes_by_declared_kind_witness :
  exists counters,
    fst (getStats port_type 5 [1; 2]
           (interface 2 None None
              [answer OTAI_STATUS_SUCCESS [("COUNTER", "1.5"); ("COUNTER", "2")]])) =
    Returns (OTAI_STATUS_SUCCESS, counters).
Proof.
  destruct (getStats_decodes_by_declared_kind port_type 5 [1; 2]
              (interface 2 None None
                 [answer OTAI_STATUS_SUCCESS [("COUNTER", "1.5"); ("COUNTER", "2")]])
              (mk_kco "" "getresponse" [("COUNTER", "1.5"); ("COUNTER", "2")]) [])
    as [_ [Htotal _]].
  - discriminate.
  - reflexivity.
  - reflexivity.
  - apply Htotal. repeat constructor; vm_compute; discriminate.
Defined.

Lemma getStats_other_status_passes_through_witness :
  fst (getStats port_type 5 [1; 2]
         (interface 2 None None [answer (OTAI_STATUS_OTHER (-7)) [("COUNTER", "1")]])) =
    Returns (OTAI_STATUS_OTHER (-7), []).
Proof.
  rewrite (getStats_other_status_passes_through port_type 5 [1; 2]
             (interface 2 None None [answer (OTAI_STATUS_OTHER (-7)) [("COUNTER", "1")]])
             (OTAI_STATUS_OTHER (-7)) (mk_kco "" "getresponse" [("COUNTER", "1")]) []).
  - reflexivity.
  - discriminate.
  - reflexivity.
  - discriminate.
Defined.

Lemma set_refreshes_tracked_linecard_witness :
  m_linecard
    (snd (set linecard_type 5 (Some plain_attr)
            (interface 2 (Some callbacks) None [answer OTAI_STATUS_SUCCESS []]))) =
    Some (notifications_of [plain_attr] callbacks).
Proof.
  destruct (set_refreshes_tracked_linecard 5 plain_attr
              (interface 2 (Some callbacks) None [answer OTAI_STATUS_SUCCESS []])
              callbacks OTAI_STATUS_SUCCESS (mk_kco "" "getresponse" []) [])
    as [Hok _].
  - vm_compute. reflexivity.
  - reflexivity.
  - discriminate.
  - reflexivity.
  - exact (f_equal (fun r => m_linecard (snd r)) (Hok eq_refl)).
Defined.

Lemma set_skips_round_trip_iff_witness :
  round_trip_events
    (events_since (interface 2 None None [])
       (snd (set linecard_type 5 (Some (mk_attribute flush_attr (AttrValue_other 1)))
               (interface 2 None None [])))) = [].
Proof.
  destruct (set_skips_round_trip_iff linecard_type 5
              (mk_attribute flush_attr (AttrValue_other 1))
              (interface 2 None None [])) as [[_ Hskip] _].
  - discriminate.
  - apply Hskip. split; [reflexivity | vm_compute; discriminate].
Defined.

Lemma notification_delivery_witness :
  handleNotification syncProcessNotification "linecard_alarm" "" []
    (interface 2 (Some callbacks) (Some 0%nat) []) =
    (Returns tt,
     set_trace [MetaProcess alarm; UserCallback 77 alarm]
       (interface 2 (Some callbacks) (Some 1%nat) [])).
Proof.
  rewrite (notification_delivery (E := collaborators) "linecard_alarm" "" [] alarm 0%nat
             (interface 2 (Some callbacks) (Some 0%nat) [])).
  - reflexivity.
  - reflexivity.
  - reflexivity.
Defined.

Lemma created_linecard_serves_notifications_witness :
  fst (syncProcessNotification (E := collaborators) alarm
         (snd (create linecard_type 0 [mk_attribute 77 (AttrValue_other 0)]
                 (interface 3 None (Some 0%nat) [answer OTAI_STATUS_SUCCESS []])))) =
    Returns callbacks.
Proof.
  apply (created_linecard_serves_notifications (E := collaborators) 0
           [mk_attribute 77 (AttrValue_other 0)] alarm 0%nat
           (interface 3 None (Some 0%nat) [answer OTAI_STATUS_SUCCESS []])
           (mk_kco "" "getresponse" []) []).
  - vm_compute. discriminate.
  - discriminate.
  - reflexivity.
  - reflexivity.
Defined.

Lemma create_then_remove_linecard_witness :
  m_linecard
    (snd (remove linecard_type 0x1000000000003
            (snd (create linecard_type 0 []
                    (interface 3 None None
                       [answer OTAI_STATUS_SUCCESS []; answer OTAI_STATUS_SUCCESS []])))))
    = None.
Proof.
  destruct (create_then_remove_linecard 0 []
              (interface 3 None None
                 [answer OTAI_STATUS_SUCCESS []; answer OTAI_STATUS_SUCCESS []])
              (mk_kco "" "getresponse" []) (mk_kco "" "getresponse" []) [])
    as [_ [_ [Hl _]]].
  - vm_compute. discriminate.
  - discriminate.
  - reflexivity.
  - exact Hl.
Defined.

Lemma teardown_stops_callbacks_witness :
  Forall (fun e => is_user_callback e = false)
    (events_since
       (snd (uninitialize (interface 2 (Some callbacks) (Some 0%nat) [])))
       (snd (handleNotification syncProcessNotification "linecard_alarm" "" []
               (snd (uninitialize (interface 2 (Some callbacks) (Some 0%nat) [])))))).
Proof.
  apply (teardown_stops_callbacks "linecard_alarm" "" []
           (interface 2 (Some callbacks) (Some 0%nat) [])).
  reflexivity.
Defined.

Lemma protocol_error_consumes_the_answer_witness :
  responses
    (snd (getStats port_type 5 [1; 2]
            (interface 2 None None
               [answer OTAI_STATUS_SUCCESS [("COUNTER", "1")];
                answer OTAI_STATUS_FAILURE []]))) =
    [answer OTAI_STATUS_FAILURE []].
Proof.
  destruct (protocol_error_consumes_the_answer port_type 5 [] [1; 2]
              (interface 2 None None
                 [answer OTAI_STATUS_SUCCESS [("COUNTER", "1")];
                  answer OTAI_STATUS_FAILURE []])
              OTAI_STATUS_SUCCESS (mk_kco "" "getresponse" [("COUNTER", "1")])
              [answer OTAI_STATUS_FAILURE []]) as [_ Hstats].
  - discriminate.
  - reflexivity.
  - destruct (Hstats eq_refl) as [Hrest _]; [simpl; lia | exact Hrest].
Defined.


End Runs.
